(** * Naval operations planner: grid collection and suitability scoring

    A shallow embedding of the Python package [naval_ops]
    ([planner.py], [bathymetry.py], [collector.py], [analyzer.py]) and the
    properties its specification states about it.

    Numbers.  Python [float]s are embedded as rationals [Q] with exact
    arithmetic: rounding error, infinities and NaN are outside the model,
    and results are compared with [==].  What the interpreter does on a
    zero divisor ([ZeroDivisionError]) is kept, through the result type
    [res].  The functions of the [math] module and [float(str)] are not
    part of the package: they are the fields of a record [pylib] the
    definitions take as argument.

    Dictionaries.  A JSON object whose fields are numbers is a
    [gmap string Q]; [d.get(k, v)] is [get_float d k v].  Dictionaries with
    fields of several types (the bathymetry record, a vessel, the inputs)
    are records whose optional keys are [option]s.

    Effects.  Requests to the external services, progress reports and
    pauses are events; a run threads the list of events so far and the
    cache of the bathymetry service ([Collector.world]), and a [network]
    gives the answer of each request from the events before it.  The two
    [while] loops of grid generation run on fuel. *)

From Stdlib Require Import QArith Qround Qabs Lqa Lia Sorted Permutation.
From Stdlib Require Import Ascii String Floats Uint63.
From stdpp Require Import gmap strings list pretty.

Local Open Scope Q_scope.

(** ** Python numerics *)

Module Py.

(** Exceptions the modelled code can raise. *)
Inductive exn : Type :=
| ZeroDivisionError
| ValueError (msg : string)
| TypeError
| RequestException.

(** The outcome of a call: a value, an exception, or [OutOfFuel] when a
    [while] loop was cut off by the fuel of the model (the loop is still
    running). *)
Inductive res (A : Type) : Type :=
| Ok (a : A)
| Raise (e : exn)
| OutOfFuel.
Arguments Ok {A} a.
Arguments Raise {A} e.
Arguments OutOfFuel {A}.

Definition bind {A B} (m : res A) (k : A -> res B) : res B :=
  match m with
  | Ok a => k a
  | Raise e => Raise e
  | OutOfFuel => OutOfFuel
  end.

(** Comparison operators on floats, as booleans. *)
Definition lt (x y : Q) : bool := if Qlt_le_dec x y then true else false.
Definition gt (x y : Q) : bool := lt y x.
Definition le (x y : Q) : bool := negb (lt y x).
Definition ge (x y : Q) : bool := le y x.

(** Truthiness of a float, and [x or d]. *)
Definition truthy (x : Q) : bool := negb (Qeq_bool x 0).
Definition or_ (x d : Q) : Q := if truthy x then x else d.

(** [max(a, b)] and [min(a, b)] return the first argument unless the
    second is strictly larger (smaller). *)
Definition max (a b : Q) : Q := if gt b a then b else a.
Definition min (a b : Q) : Q := if lt b a then b else a.

(** [x / y] on floats raises on a zero divisor. *)
Definition div (x y : Q) : res Q :=
  if Qeq_bool y 0 then Raise ZeroDivisionError else Ok (x / y).

(** [x % m] on floats: the result has the sign of [m]. *)
Definition mod_ (x m : Q) : Q := x - m * inject_Z (Qfloor (x / m)).

(** Round to the nearest integer, ties to even. *)
Definition round_half_even (x : Q) : Z :=
  let f := Qfloor x in
  let r := x - inject_Z f in
  if lt r (1 # 2) then f
  else if lt (1 # 2) r then (f + 1)%Z
  else if Z.even f then f else (f + 1)%Z.

(** [round(x, 1)]. *)
Definition round1 (x : Q) : Q := inject_Z (round_half_even (x * 10)) / 10.

(** [f"{x:.nf}"]: fixed notation with [n] decimals, the last one rounded
    half to even; the sign is that of [x], also when the digits are all
    zero. *)
Fixpoint zeros (k : nat) : string :=
  match k with
  | O => ""
  | S k' => "0" +:+ zeros k'
  end.

Definition pad_zeros (n : nat) (s : string) : string :=
  zeros (n - String.length s) +:+ s.

Definition format_fixed (n : nat) (x : Q) : string :=
  let scale := (10 ^ Z.of_nat n)%Z in
  let digits := round_half_even (Qabs x * inject_Z scale) in
  let whole := Z.to_N (digits / scale) in
  let frac := Z.to_N (digits mod scale) in
  (if lt x 0 then "-" else "") +:+ pretty whole +:+
  (match n with
   | O => ""
   | S _ => "." +:+ pad_zeros n (pretty frac)
   end).

(** [c in s], [s.split(c)] and [s.strip()] on strings. *)
Fixpoint contains (c : ascii) (s : string) : bool :=
  match s with
  | EmptyString => false
  | String a s' => if Ascii.eqb a c then true else contains c s'
  end.

Fixpoint split (c : ascii) (s : string) : list string :=
  match s with
  | EmptyString => [EmptyString]
  | String a s' =>
    if Ascii.eqb a c then EmptyString :: split c s'
    else match split c s' with
         | p :: ps => String a p :: ps
         | [] => [String a EmptyString]
         end
  end.

Definition is_space (a : ascii) : bool :=
  let n := nat_of_ascii a in
  (Nat.eqb n 32 || (Nat.leb 9 n && Nat.leb n 13) || (Nat.leb 28 n && Nat.leb n 31))%bool.

Fixpoint lstrip (s : string) : string :=
  match s with
  | EmptyString => EmptyString
  | String a s' => if is_space a then lstrip s' else s
  end.

Fixpoint rstrip (s : string) : string :=
  match s with
  | EmptyString => EmptyString
  | String a s' =>
    match rstrip s' with
    | EmptyString => if is_space a then EmptyString else String a EmptyString
    | r => String a r
    end
  end.

Definition strip (s : string) : string := rstrip (lstrip s).

(** [d.get(k, v)] on a dictionary of floats. *)
Definition get_float (d : gmap string Q) (k : string) (v : Q) : Q :=
  default v (d !! k).

(** [not d] for a dictionary that may be [None]: true on [None] and on
    the empty dictionary. *)
Definition falsy_dict {V} (d : option (gmap string V)) : bool :=
  match d with
  | None => true
  | Some m => bool_decide (m = ∅)
  end.

End Py.

Import Py.

#[global] Instance res_ret : MRet res := fun _ a => Ok a.
#[global] Instance res_bind : MBind res := fun _ _ k m => bind m k.

(** ** Data model *)

(** A coordinate pair, [{'lat': .., 'lon': ..}]. *)
Record latlon : Type := LatLon { lat : Q; lon : Q }.

(** A geocoded location, [{'lat': .., 'lon': .., 'name': ..}]. *)
Record place : Type := Place { loc_lat : Q; loc_lon : Q; loc_name : string }.

(** The dictionary [BathymetryResult.to_dict] builds, read back by the
    collector and the analyzer with [.get]: a field is [None] when the key
    is absent (for the depths, also when its value is [None]). *)
Record bathy_dict : Type := BathyDict {
  bd_depth_m : option Q;
  bd_depth_ft : option Q;
  bd_is_ocean : option bool;
  bd_estimated : option bool;
  bd_source : option string
}.

Definition bathy_empty (b : bathy_dict) : bool :=
  match b with
  | BathyDict None None None None None => true
  | _ => false
  end.

(** A vessel of the formation. *)
Record vessel : Type := Vessel {
  v_type : string;
  v_name : string;
  v_draft_ft : option Q;
  v_min_depth_ft : option Q;
  v_length_ft : option Q;
  v_has_flight_deck : option bool;
  v_has_well_deck : option bool;
  v_has_5_inch_gun : option bool
}.

(** One entry of [analyzed_points]. *)
Record point_data : Type := PointData {
  pt_lat : Q;
  pt_lon : Q;
  pt_weather : option (gmap string Q);
  pt_marine : option (gmap string Q);
  pt_bathymetry : option bathy_dict;
  pt_distance_from_center_nm : option Q;
  pt_distance_from_target_nm : option Q
}.

(** The [inputs] dictionary the planner builds and the collector and the
    analyzer read.  Keys read with a default are [option]s; [vessels] and
    [weather_thresholds] are read with [.get(k, empty) or empty], so an
    absent key is the empty value. *)
Record inputs : Type := Inputs {
  in_primary_mission : option string;
  in_lateral_limit_a : latlon;
  in_lateral_limit_b : latlon;
  in_center_coords : option latlon;
  in_center_location : string;
  in_direction_of_attack : option Q;
  in_sector_min_bearing : option Q;
  in_sector_max_bearing : option Q;
  in_target_location : string;
  in_vessels : list vessel;
  in_weather_thresholds : gmap string Q;
  in_radius_nm : option Q;
  in_grid_spacing_nm : option Q;
  in_min_distance_shore_nm : option Q;
  in_max_distance_shore_nm : option Q
}.

(** The statistics of a collection run. *)
Record CollectorStats : Type := MkStats {
  ocean_points : nat;
  land_points : nat;
  total_points : nat;
  bathy_sources : gmap string nat
}.

Record metadata : Type := Metadata {
  md_collected_at : string;
  md_points_total : nat;
  md_points_ocean : nat;
  md_points_land : nat;
  md_bathymetry_sources : gmap string nat
}.

(** The dictionary [collect] returns and the analyzer reads.  [target],
    [astronomical] are keys that may be absent. *)
Record data : Type := Data {
  d_center : place;
  d_target : option place;
  d_grid_points : list latlon;
  d_analyzed_points : list point_data;
  d_astronomical : option (string * string);
  d_metadata : metadata
}.

(** ** The interpreter's library

    The functions of [math] and the conversion [float(str)] are taken as
    given.  [sqrt] and [asin] raise [ValueError] outside their domain. *)
Record pylib : Type := PyLib {
  m_sin : Q -> Q;
  m_cos : Q -> Q;
  m_atan2 : Q -> Q -> Q;
  m_asin : Q -> res Q;
  m_sqrt : Q -> res Q;
  m_radians : Q -> Q;
  m_degrees : Q -> Q;
  float_of_string : string -> option Q
}.

(** ** The outside world

    Every request to an external service is an event of the run; what the
    service answers is given by a [network], which may depend on all the
    events before the request.  [Failed] stands for every way a request
    can fail inside its [try] block: a connection error, a timeout, an
    error status, a body that is not the expected JSON. *)

Inductive http (A : Type) : Type :=
| Failed
| Json (payload : A).
Arguments Failed {A}.
Arguments Json {A} payload.

(** The [elevation] field of the first result of the elevation service:
    absent or [null], a NaN, a JSON value that is not a number, or a
    number. *)
Inductive elevation : Type :=
| ElevMissing
| ElevNaN
| ElevOther
| ElevNum (elev_m : Q).

Inductive event : Type :=
| EvGeocode (name : string)
| EvForecast (lat lon : Q)
| EvMarine (lat lon : Q)
| EvElevation (lat lon : Q)
| EvAstronomy (lat lon : Q)
| EvProgress (done total : nat) (stats : CollectorStats)
| EvSleep (seconds : Q).

Record network : Type := Network {
(** the [results] list of the geocoding service *)
net_geocode : list event -> string -> http (list place);
(** the [current] object of the forecast service *)
net_forecast : list event -> Q -> Q -> http (option (gmap string Q));
(** the [current] object of the marine service *)
net_marine : list event -> Q -> Q -> http (option (gmap string Q));
(** the [results] list of the elevation service *)
net_elevation : list event -> Q -> Q -> http (list elevation);
(** the [sunrise] and [sunset] lists of the [daily] object *)
net_astronomy : list event -> Q -> Q -> http (option (list string * list string));
(** [datetime.now().isoformat()] *)
net_now : list event -> string
}.

(** ** bathymetry.py *)

Module Bathymetry.

Definition M_TO_FT : Q := 3.28084.

Record BathymetryResult : Type := MkBathymetryResult {
  depth_m : option Q;
  depth_ft : option Q;
  is_ocean : bool;
  estimated : bool;
  source : string
}.

Definition to_dict (r : BathymetryResult) : bathy_dict :=
  BathyDict (depth_m r) (depth_ft r) (Some (is_ocean r)) (Some (estimated r))
    (Some (source r)).

(** The state of a [BathymetryService]: its [_cache]. *)
Abbreviation service := (gmap string BathymetryResult).

Definition new_service : service := ∅.

Definition cache_key (lat lon : Q) : string :=
  format_fixed 5 lat +:+ "," +:+ format_fixed 5 lon.

(** The body of the [try] block, on the answer of the service. *)
Definition try_fetch (resp : http (list elevation)) : res BathymetryResult :=
  match resp with
  | Failed => Raise RequestException
  | Json results =>
    match results with
    | [] => Raise (ValueError "No results")
    | r0 :: _ =>
      match r0 with
      | ElevMissing | ElevNaN => Raise (ValueError "No elevation")
      | ElevOther => Raise TypeError
      | ElevNum elev_m =>
        if lt elev_m 0 then
          let depth_m := Qabs elev_m in
          Ok (MkBathymetryResult (Some depth_m) (Some (depth_m * M_TO_FT))
                true false "OpenTopoData GEBCO2020")
        else
          Ok (MkBathymetryResult (Some 0.0) (Some 0.0)
                false false "OpenTopoData GEBCO2020")
      end
    end
  end.

Definition fallback : BathymetryResult :=
  MkBathymetryResult (Some 50.0) (Some (50.0 * M_TO_FT)) true true "Fallback estimate".

(** [get_bathymetry]: the answer, the events of the call and the
    service after it.  [history] is the run so far. *)
Definition get_bathymetry (N : network) (history : list event) (svc : service)
    (lat lon : Q) : bathy_dict * list event * service :=
  let key := cache_key lat lon in
  match svc !! key with
  | Some r => (to_dict r, [], svc)
  | None =>
    let out :=
      match try_fetch (net_elevation N history lat lon) with
      | Ok out => out
      | _ => fallback
      end in
    (to_dict out, [EvElevation lat lon], <[key := out]> svc)
  end.

End Bathymetry.

(** ** planner.py *)

Module Planner.
Section WithLib.
Context (L : pylib).

Definition calculate_midpoint (lat1 lon1 lat2 lon2 : Q) : Q * Q :=
  ((lat1 + lat2) / 2.0, (lon1 + lon2) / 2.0).

Definition calculate_bearing (lat1 lon1 lat2 lon2 : Q) : Q :=
  let lat1_rad := m_radians L lat1 in
  let lat2_rad := m_radians L lat2 in
  let diff_lon := m_radians L (lon2 - lon1) in
  let x := m_sin L diff_lon * m_cos L lat2_rad in
  let y := m_cos L lat1_rad * m_sin L lat2_rad
           - (m_sin L lat1_rad * m_cos L lat2_rad * m_cos L diff_lon) in
  let initial_bearing := m_degrees L (m_atan2 L x y) in
  mod_ (initial_bearing + 360.0) 360.0.

Definition calculate_perpendicular_bearing (bearing : Q) : Q :=
  mod_ (bearing + 90.0) 360.0.

Definition build_derived_geometry (inp : inputs) : inputs :=
  let a := in_lateral_limit_a inp in
  let b := in_lateral_limit_b inp in
  let '(center_lat, center_lon) := calculate_midpoint (lat a) (lon a) (lat b) (lon b) in
  let lateral_bearing := calculate_bearing (lat a) (lon a) (lat b) (lon b) in
  let doa := calculate_perpendicular_bearing lateral_bearing in
  {| in_primary_mission := in_primary_mission inp;
     in_lateral_limit_a := a;
     in_lateral_limit_b := b;
     in_center_coords := Some (LatLon center_lat center_lon);
     in_center_location :=
       format_fixed 4 center_lat +:+ ", " +:+ format_fixed 4 center_lon;
     in_direction_of_attack := Some doa;
     in_sector_min_bearing := Some (mod_ (doa - 90.0) 360.0);
     in_sector_max_bearing := Some (mod_ (doa + 90.0) 360.0);
     in_target_location := in_target_location inp;
     in_vessels := in_vessels inp;
     in_weather_thresholds := in_weather_thresholds inp;
     in_radius_nm := in_radius_nm inp;
     in_grid_spacing_nm := in_grid_spacing_nm inp;
     in_min_distance_shore_nm := in_min_distance_shore_nm inp;
     in_max_distance_shore_nm := in_max_distance_shore_nm inp |}.

End WithLib.
End Planner.

(** ** analyzer.py *)

Module Analyzer.

Definition DEFAULT_GUN_RANGE_NM : Q := 13.0.

Record ScoreBreakdown : Type := MkScoreBreakdown {
  overall : Q;
  weather : Q;
  sea_state : Q;
  depth : Q;
  flight_ops : Q;
  fire_support : Q;
  distance : Q
}.

Record scored_point : Type := ScoredPoint {
  sp_lat : Q;
  sp_lon : Q;
  sp_scores : ScoreBreakdown;
  sp_weather : option (gmap string Q);
  sp_marine : option (gmap string Q);
  sp_bathymetry : option bathy_dict;
  sp_distance_from_center_nm : option Q;
  sp_distance_from_target_nm : option Q
}.

Definition _thresholds (inp : inputs) : gmap string Q := in_weather_thresholds inp.

Definition score_weather (inp : inputs) (weather : option (gmap string Q)) : res Q :=
  match weather with
  | None => Ok 0.0
  | Some weather =>
    if bool_decide (weather = ∅) then Ok 0.0 else
    let th := _thresholds inp in
    let max_wind := get_float th "max_wind_speed_kts" 25 in
    let min_vis_m := get_float th "min_visibility_m" 5000 in
    let max_cloud := get_float th "max_cloud_cover_pct" 75 in
    let wind := get_float weather "wind_speed_10m" 0 in
    let vis := get_float weather "visibility" 0 in
    let cloud := get_float weather "cloud_cover" 0 in
    let precip := get_float weather "precipitation" 0 in
    if gt wind max_wind then Ok 0.0 else
    if lt vis min_vis_m then Ok 0.0 else
    cloud_penalty ←
      (if gt cloud max_cloud then Ok 40.0
       else q ← div cloud (max 1.0 max_cloud); mret (q * 20.0));
    let score := 100.0 in
    q ← div wind max_wind;
    let score := score - q * 30.0 in
    let score := score - cloud_penalty in
    let score :=
      if gt precip 5 then score - 30.0
      else if gt precip 0 then score - 10.0
      else score in
    q ← div (vis - min_vis_m) (max 1.0 min_vis_m);
    let score := score + min 10.0 (q * 10.0) in
    mret (max 0.0 (min 100.0 score))
  end.

Definition score_sea_state (inp : inputs) (marine : option (gmap string Q)) : res Q :=
  match marine with
  | None => Ok 50.0
  | Some marine =>
    if bool_decide (marine = ∅) then Ok 50.0 else
    let th := _thresholds inp in
    let max_wave := get_float th "max_wave_height_ft" 6 in
    let wave := or_ (get_float marine "wave_height" 0) 0 in
    let swell := or_ (get_float marine "swell_wave_height" 0) 0 in
    let current := or_ (get_float marine "ocean_current_velocity" 0) 0 in
    if gt wave max_wave then Ok 0.0 else
    let score := 100.0 in
    q ← div wave max_wave;
    let score := score - q * 40.0 in
    let score :=
      if gt swell 6 then score - 20.0
      else if gt swell 3 then score - 10.0
      else score in
    let score := if gt current 2 then score - 15.0 else score in
    mret (max 0.0 (min 100.0 score))
  end.

(** [float(v.get("min_depth_ft", 20) or 20)]. *)
Definition vessel_min_depth (v : vessel) : Q :=
  or_ (default 20 (v_min_depth_ft v)) 20.

(** [max(... for v in vessels) if vessels else 20.0]. *)
Definition min_depth_required (vessels : list vessel) : Q :=
  match vessels with
  | [] => 20.0
  | v :: vs => fold_left (fun m v' => max m (vessel_min_depth v')) vs (vessel_min_depth v)
  end.

Definition score_depth (bathy : option bathy_dict) (vessels : list vessel) : Q :=
  match bathy with
  | None => 50.0
  | Some bathy =>
    if bathy_empty bathy then 50.0 else
    if negb (default true (bd_is_ocean bathy)) then 0.0 else
    let depth_ft := or_ (default 0 (bd_depth_ft bathy)) 0 in
    let min_depth_required := min_depth_required vessels in
    if lt depth_ft min_depth_required then 0.0 else
    if le min_depth_required depth_ft && le depth_ft 300 then 100.0 else
    if gt depth_ft 300 then 80.0 else
    max 0.0 (min 100.0 ((depth_ft / 50.0) * 100.0))
  end.

Definition score_flight_ops (weather marine : option (gmap string Q))
    (vessels : list vessel) : Q :=
  let has_flight := existsb (fun v => default false (v_has_flight_deck v)) vessels in
  if negb has_flight then 0.0 else
  if falsy_dict weather || falsy_dict marine then 0.0 else
  let weather := default ∅ weather in
  let marine := default ∅ marine in
  let wind := or_ (get_float weather "wind_speed_10m" 0) 0 in
  let vis := or_ (get_float weather "visibility" 0) 0 in
  let cloud := or_ (get_float weather "cloud_cover" 0) 0 in
  let precip := or_ (get_float weather "precipitation" 0) 0 in
  let wave := or_ (get_float marine "wave_height" 0) 0 in
  let score := 100.0 in
  let after_wind : option Q :=
    if lt wind 10 then Some (score - 20.0)
    else if le wind 25 then Some (score - 0.0)
    else if le wind 35 then Some (score - 30.0)
    else None in
  match after_wind with
  | None => 0.0
  | Some score =>
    if lt vis 3000 then 0.0 else
    let score := if lt vis 5000 then score - 30.0 else score in
    let score :=
      if gt cloud 80 then score - 30.0
      else if gt cloud 50 then score - 15.0
      else score in
    let score :=
      if gt wave 6 then score - 40.0
      else if gt wave 4 then score - 20.0
      else score in
    let score :=
      if gt precip 2 then score - 40.0
      else if gt precip 0 then score - 20.0
      else score in
    max 0.0 (min 100.0 score)
  end.

Definition _max_gun_range_nm (vessels : list vessel) : Q :=
  if existsb (fun v => default false (v_has_5_inch_gun v)) vessels
  then DEFAULT_GUN_RANGE_NM
  else 0.0.

Definition score_fire_support (dat : data) (point : point_data)
    (vessels : list vessel) : Q :=
  let max_gun := _max_gun_range_nm vessels in
  if le max_gun 0 then 0.0 else
  match d_target dat with
  | None => 70.0
  | Some _ =>
    let dist := or_ (default 1e9 (pt_distance_from_target_nm point)) 1e9 in
    let first : option Q :=
      if le dist (max_gun * 0.7) then Some 100.0
      else if le dist max_gun then Some 80.0
      else None in
    match first with
    | None => 0.0
    | Some score =>
      let depth :=
        or_ (default 0 (bd_depth_ft (default (BathyDict None None None None None)
                                             (pt_bathymetry point)))) 0 in
      let score := if lt depth 30 then score - 40.0 else score in
      max 0.0 (min 100.0 score)
    end
  end.

Definition score_distance_constraints (inp : inputs) (point : point_data) : Q :=
  let dist := or_ (default 0 (pt_distance_from_center_nm point)) 0 in
  let min_dist := or_ (default 5 (in_min_distance_shore_nm inp)) 5 in
  let max_dist := or_ (default 50 (in_max_distance_shore_nm inp)) 50 in
  if lt dist min_dist || gt dist max_dist then 20.0 else 100.0.

(** The weight dictionary of a mission, indexed by the six score names. *)
Record weights : Type := Weights {
  w_weather : Q;
  w_sea_state : Q;
  w_depth : Q;
  w_flight_ops : Q;
  w_fire_support : Q;
  w_distance : Q
}.

Definition _weights_for_mission (mission : string) : weights :=
  if String.eqb mission "amphibious_landing" then
    Weights 0.15 0.25 0.15 0.20 0.15 0.10
  else if String.eqb mission "naval_gunfire_support" then
    Weights 0.15 0.15 0.15 0.05 0.40 0.10
  else if String.eqb mission "flight_operations" then
    Weights 0.20 0.25 0.15 0.30 0.05 0.05
  else
    Weights 0.20 0.20 0.15 0.15 0.20 0.10.

Definition calculate_scores (inp : inputs) (dat : data) (point : point_data)
    : res ScoreBreakdown :=
  let vessels := in_vessels inp in
  weather ← score_weather inp (pt_weather point);
  sea ← score_sea_state inp (pt_marine point);
  let depth := score_depth (pt_bathymetry point) vessels in
  let flight := score_flight_ops (pt_weather point) (pt_marine point) vessels in
  let fire := score_fire_support dat point vessels in
  let dist := score_distance_constraints inp point in
  let mission := default "balanced"%string (in_primary_mission inp) in
  let w := _weights_for_mission mission in
  let overall :=
    weather * w_weather w
    + sea * w_sea_state w
    + depth * w_depth w
    + flight * w_flight_ops w
    + fire * w_fire_support w
    + dist * w_distance w in
  mret (MkScoreBreakdown (round1 overall) (round1 weather) (round1 sea)
          (round1 depth) (round1 flight) (round1 fire) (round1 dist)).

(** [l.sort(key=key, reverse=True)]: Python's sort is stable, and with
    [reverse=True] elements with equal keys keep their original order.
    [insert_desc x l] puts [x] in front of the first element whose key
    is not larger than the key of [x]. *)
Fixpoint insert_desc {A} (key : A -> Q) (x : A) (l : list A) : list A :=
  match l with
  | [] => [x]
  | y :: ys =>
    if lt (key x) (key y) then y :: insert_desc key x ys
    else x :: y :: ys
  end.

Definition sort_reverse {A} (key : A -> Q) (l : list A) : list A :=
  foldr (insert_desc key) [] l.

Definition score_point (inp : inputs) (dat : data) (p : point_data)
    : res scored_point :=
  scores ← calculate_scores inp dat p;
  mret (ScoredPoint (pt_lat p) (pt_lon p) scores (pt_weather p) (pt_marine p)
          (pt_bathymetry p) (pt_distance_from_center_nm p)
          (pt_distance_from_target_nm p)).

(** The loop of [analyze]: score each point and append. *)
Fixpoint score_all (inp : inputs) (dat : data) (points : list point_data)
    : res (list scored_point) :=
  match points with
  | [] => Ok []
  | p :: ps =>
    s ← score_point inp dat p;
    rest ← score_all inp dat ps;
    mret (s :: rest)
  end.

Definition analyze (inp : inputs) (dat : data) : res (list scored_point) :=
  let points := d_analyzed_points dat in
  scored ← score_all inp dat points;
  mret (sort_reverse (fun x => overall (sp_scores x)) scored).

End Analyzer.

(** ** collector.py *)

Module Collector.

(** What a run threads through its calls: the events so far, and the
    [BathymetryService] the collector owns. *)
Record world : Type := World {
  trace : list event;
  bathy_service : Bathymetry.service
}.

Definition io (A : Type) : Type := world -> res A * world.

#[global] Instance io_ret : MRet io := fun _ a w => (Ok a, w).
#[global] Instance io_bind : MBind io := fun _ _ k m w =>
  match m w with
  | (Ok a, w') => k a w'
  | (Raise e, w') => (Raise e, w')
  | (OutOfFuel, w') => (OutOfFuel, w')
  end.

(** A pure computation that may raise. *)
Definition lift {A} (r : res A) : io A := fun w => (r, w).

(** An event without an answer ([progress(..)], [time.sleep(..)]). *)
Definition emit (e : event) : io unit :=
  fun w => (Ok tt, World (trace w ++ [e]) (bathy_service w)).

(** A request: the answer is read off the run so far, then the request
    joins the run. *)
Definition request {A} (e : event) (answer : list event -> A) : io A :=
  fun w => (Ok (answer (trace w)), World (trace w ++ [e]) (bathy_service w)).

Section WithEnv.
Context (L : pylib) (N : network).

Definition geocode_location (location : string) : io (option place) :=
  let parsed : option place :=
    if contains "," location then
      let parts := split "," location in
      match float_of_string L (strip (nth 0 parts EmptyString)),
            float_of_string L (strip (nth 1 parts EmptyString)) with
      | Some lat, Some lon =>
        Some (Place lat lon
                ("Custom Location (" +:+ format_fixed 4 lat +:+ ", "
                 +:+ format_fixed 4 lon +:+ ")"))
      | _, _ => None
      end
    else None in
  match parsed with
  | Some loc => mret (Some loc)
  | None =>
    resp ← request (EvGeocode location) (fun h => net_geocode N h location);
    match resp with
    | Json (r0 :: _) => mret (Some r0)
    | Json [] => mret None
    | Failed => mret None
    end
  end.

Definition calculate_bearing (lat1 lon1 lat2 lon2 : Q) : Q :=
  let lat1_rad := m_radians L lat1 in
  let lat2_rad := m_radians L lat2 in
  let diff_lon := m_radians L (lon2 - lon1) in
  let x := m_sin L diff_lon * m_cos L lat2_rad in
  let y := m_cos L lat1_rad * m_sin L lat2_rad
           - (m_sin L lat1_rad * m_cos L lat2_rad * m_cos L diff_lon) in
  let initial_bearing := m_degrees L (m_atan2 L x y) in
  mod_ (initial_bearing + 360) 360.

Definition _is_in_sector (point_lat point_lon center_lat center_lon
    min_bearing max_bearing : Q) : bool :=
  let bearing_to_point := calculate_bearing center_lat center_lon point_lat point_lon in
  if gt min_bearing max_bearing then
    ge bearing_to_point min_bearing || le bearing_to_point max_bearing
  else
    le min_bearing bearing_to_point && le bearing_to_point max_bearing.

Section Grid.
Context (inp : inputs) (center_lat center_lon radius_nm grid_spacing_nm : Q).

Let radius_deg : Q := radius_nm * 1.0 / 60.0.
Let spacing_deg : Q := grid_spacing_nm * 1.0 / 60.0.
Let min_sector : Q := default 0 (in_sector_min_bearing inp).
Let max_sector : Q := default 360 (in_sector_max_bearing inp).

(** The inner [while lon <= center_lon + radius_deg]. *)
Fixpoint lon_loop (fuel : nat) (lat lon : Q) (points : list latlon)
    : res (list latlon) :=
  match fuel with
  | O => OutOfFuel
  | S fuel' =>
    if le lon (center_lon + radius_deg) then
      distance ← m_sqrt L ((lat - center_lat) ^ 2 + (lon - center_lon) ^ 2);
      let points :=
        if le distance radius_deg
           && _is_in_sector lat lon center_lat center_lon min_sector max_sector
        then points ++ [LatLon lat lon]
        else points in
      lon_loop fuel' lat (lon + spacing_deg) points
    else Ok points
  end.

(** The outer [while lat <= center_lat + radius_deg]. *)
Fixpoint lat_loop (fuel fuel_lon : nat) (lat : Q) (points : list latlon)
    : res (list latlon) :=
  match fuel with
  | O => OutOfFuel
  | S fuel' =>
    if le lat (center_lat + radius_deg) then
      points ← lon_loop fuel_lon lat (center_lon - radius_deg) points;
      lat_loop fuel' fuel_lon (lat + spacing_deg) points
    else Ok points
  end.

Definition generate_grid_points (fuel : nat) : res (list latlon) :=
  lat_loop fuel fuel (center_lat - radius_deg) [].
End Grid.

Definition default_weather : gmap string Q :=
  {[ "temperature_2m" := 82; "relative_humidity_2m" := 75; "precipitation" := 0;
     "weather_code" := 1; "cloud_cover" := 40; "visibility" := 10000;
     "wind_speed_10m" := 15; "wind_direction_10m" := 90; "wind_gusts_10m" := 20 ]}.

Definition offsets : list (Q * Q) :=
  [(0, 0); (0.5, 0); (-0.5, 0); (0, 0.5); (0, -0.5)].

Fixpoint try_offsets (lat lon : Q) (offs : list (Q * Q)) : io (gmap string Q) :=
  match offs with
  | [] => mret default_weather
  | (dlat, dlon) :: rest =>
    resp ← request (EvForecast (lat + dlat) (lon + dlon))
             (fun h => net_forecast N h (lat + dlat) (lon + dlon));
    match resp with
    | Json (Some current) =>
      if bool_decide (current = ∅) then try_offsets lat lon rest else mret current
    | _ => try_offsets lat lon rest
    end
  end.

Definition get_regional_weather (lat lon : Q) : io (gmap string Q) :=
  try_offsets lat lon offsets.

Definition get_marine_data (lat lon : Q) : io (option (gmap string Q)) :=
  resp ← request (EvMarine lat lon) (fun h => net_marine N h lat lon);
  match resp with
  | Json current => mret current
  | Failed => mret None
  end.

Definition get_astronomical_data (lat lon : Q) : io (option (string * string)) :=
  resp ← request (EvAstronomy lat lon) (fun h => net_astronomy N h lat lon);
  match resp with
  | Json (Some (sunrise :: _, sunset :: _)) => mret (Some (sunrise, sunset))
  | _ => mret None
  end.

Definition calculate_distance_nm (lat1 lon1 lat2 lon2 : Q) : res Q :=
  let R := 3440.065 in
  let lat1_rad := m_radians L lat1 in
  let lat2_rad := m_radians L lat2 in
  let dlat := m_radians L (lat2 - lat1) in
  let dlon := m_radians L (lon2 - lon1) in
  let a := m_sin L (dlat / 2) ^ 2
           + m_cos L lat1_rad * m_cos L lat2_rad * m_sin L (dlon / 2) ^ 2 in
  r ← m_sqrt L a;
  s ← m_asin L r;
  let c := 2 * s in
  mret (R * c).

(** [self.bathy_service.get_bathymetry(lat, lon)]. *)
Definition get_bathymetry (lat lon : Q) : io bathy_dict :=
  fun w =>
    let '(d, evs, svc) :=
      Bathymetry.get_bathymetry N (trace w) (bathy_service w) lat lon in
    (Ok d, World (trace w ++ evs) svc).

Definition count_source (stats : CollectorStats) (src : string) : CollectorStats :=
  MkStats (ocean_points stats) (land_points stats) (total_points stats)
    (<[src := (default 0 (bathy_sources stats !! src) + 1)%nat]> (bathy_sources stats)).

Definition add_land (stats : CollectorStats) : CollectorStats :=
  MkStats (ocean_points stats) (land_points stats + 1) (total_points stats)
    (bathy_sources stats).

Definition add_ocean (stats : CollectorStats) : CollectorStats :=
  MkStats (ocean_points stats + 1) (land_points stats) (total_points stats)
    (bathy_sources stats).

Section Loop.
Context (center : place) (target : option place)
        (region_weather : gmap string Q)
        (progress : bool) (rate_limit_s : Q) (total : nat).

Definition report (i : nat) (stats : CollectorStats) : io unit :=
  if progress then emit (EvProgress (i + 1) total stats) else mret tt.

(** One iteration of [for i, point in enumerate(grid_points)]. *)
Definition collect_point (i : nat) (point : latlon)
    (acc : CollectorStats * list point_data)
    : io (CollectorStats * list point_data) :=
  let '(stats, analyzed_points) := acc in
  marine ← get_marine_data (lat point) (lon point);
  bathy ← get_bathymetry (lat point) (lon point);
  let stats := count_source stats (default "Unknown"%string (bd_source bathy)) in
  if negb (default true (bd_is_ocean bathy)) then
    let stats := add_land stats in
    _ ← report i stats;
    _ ← emit (EvSleep rate_limit_s);
    mret (stats, analyzed_points)
  else
    let stats := add_ocean stats in
    dc ← lift (calculate_distance_nm (loc_lat center) (loc_lon center)
                 (lat point) (lon point));
    dt ← match target with
         | Some t =>
           d ← lift (calculate_distance_nm (loc_lat t) (loc_lon t)
                       (lat point) (lon point));
           mret (Some d)
         | None => mret None
         end;
    let point_data :=
      PointData (lat point) (lon point) (Some region_weather) marine
        (Some bathy) (Some dc) dt in
    let analyzed_points := analyzed_points ++ [point_data] in
    _ ← report i stats;
    _ ← emit (EvSleep rate_limit_s);
    mret (stats, analyzed_points).

Fixpoint collect_loop (i : nat) (grid_points : list latlon)
    (acc : CollectorStats * list point_data)
    : io (CollectorStats * list point_data) :=
  match grid_points with
  | [] => mret acc
  | point :: rest =>
    acc ← collect_point i point acc;
    collect_loop (S i) rest acc
  end.
End Loop.

(** [datetime.now().isoformat()]. *)
Definition isoformat_now : io string :=
  fun w => (Ok (net_now N (trace w)), w).

Definition collect (inp : inputs) (fuel : nat) (progress : bool)
    (rate_limit_s : Q) : io data :=
  center ← geocode_location (in_center_location inp);
  match center with
  | None => lift (Raise (ValueError "Could not process center_location"))
  | Some center =>
    target ←
      (if String.eqb (in_target_location inp) "" then mret None
       else geocode_location (in_target_location inp));
    region_weather ← get_regional_weather (loc_lat center) (loc_lon center);
    grid_points ← lift (generate_grid_points inp (loc_lat center) (loc_lon center)
                          (default 13 (in_radius_nm inp))
                          (default 1.0 (in_grid_spacing_nm inp)) fuel);
    let stats := MkStats 0 0 (length grid_points) ∅ in
    '(stats, analyzed_points) ←
      collect_loop center target region_weather progress rate_limit_s
        (length grid_points) 0 grid_points (stats, []);
    astro ← get_astronomical_data (loc_lat center) (loc_lon center);
    now ← isoformat_now;
    mret (Data center target grid_points analyzed_points astro
            (Metadata now (total_points stats) (ocean_points stats)
               (land_points stats) (bathy_sources stats)))
  end.

End WithEnv.
End Collector.

(** ** Vocabulary of the statements *)

(** The depth the scorer reads: [float(bathy.get("depth_ft", 0) or 0)]. *)
Definition depth_read (b : bathy_dict) : Q := or_ (default 0 (bd_depth_ft b)) 0.

(** Descending order on the overall score. *)
Definition overall_ge (a b : Analyzer.scored_point) : Prop :=
  Analyzer.overall (Analyzer.sp_scores b) <= Analyzer.overall (Analyzer.sp_scores a).

(** The entries of a score list whose overall score equals [v], in the
    order of the list. *)
Definition with_overall (v : Q) (l : list Analyzer.scored_point)
    : list Analyzer.scored_point :=
  List.filter (fun s => Qeq_bool (Analyzer.overall (Analyzer.sp_scores s)) v) l.

(** The ways the elevation fetch fails: the request itself, an empty
    result list, an elevation that is missing, NaN or not a number. *)
Inductive fetch_failure : http (list elevation) -> Prop :=
| failure_request : fetch_failure Failed
| failure_no_results : fetch_failure (Json [])
| failure_missing rest : fetch_failure (Json (ElevMissing :: rest))
| failure_nan rest : fetch_failure (Json (ElevNaN :: rest))
| failure_not_a_number rest : fetch_failure (Json (ElevOther :: rest)).

(** A sequence of [get_bathymetry] calls on one service: the events and
    the service after the last call. *)
Fixpoint lookups (N : network) (history : list event) (svc : Bathymetry.service)
    (coords : list (Q * Q)) : list event * Bathymetry.service :=
  match coords with
  | [] => (history, svc)
  | (lat, lon) :: rest =>
    let '(_, evs, svc') := Bathymetry.get_bathymetry N history svc lat lon in
    lookups N (history ++ evs) svc' rest
  end.

(** Membership of a bearing in the sector from [smin] to [smax], which
    wraps through 0 when [smin > smax]. *)
Definition in_sector (bearing smin smax : Q) : Prop :=
  (smin <= smax -> smin <= bearing /\ bearing <= smax) /\
  (smax < smin -> smin <= bearing \/ bearing <= smax).

(** What the grid generator guarantees of a point it returns: the distance
    to the center, as [math.sqrt] computes it, is at most [radius_nm / 60],
    and the bearing from the center is in the sector of the inputs. *)
Definition grid_point_ok (L : pylib) (inp : inputs)
    (center_lat center_lon radius_nm : Q) (p : latlon) : Prop :=
  (exists distance,
     m_sqrt L ((lat p - center_lat) ^ 2 + (lon p - center_lon) ^ 2) = Ok distance /\
     distance <= radius_nm / 60) /\
  in_sector (Collector.calculate_bearing L center_lat center_lon (lat p) (lon p))
    (default 0 (in_sector_min_bearing inp))
    (default 360 (in_sector_max_bearing inp)).

(** An analyzed point whose bathymetry says ocean. *)
Definition is_ocean_point (p : point_data) : Prop :=
  exists b, pt_bathymetry p = Some b /\ bd_is_ocean b = Some true.

(** The world after the marine request of a grid point, and the bathymetry
    the collector then gets for the point. *)
Definition after_marine (w : Collector.world) (p : latlon) : Collector.world :=
  Collector.World (Collector.trace w ++ [EvMarine (lat p) (lon p)])
    (Collector.bathy_service w).

Definition bathymetry_at (N : network) (w : Collector.world) (p : latlon) : bathy_dict :=
  (Bathymetry.get_bathymetry N (Collector.trace (after_marine w p))
     (Collector.bathy_service w) (lat p) (lon p)).1.1.

(** Events that ask no service: progress reports and pauses. *)
Definition is_local (e : event) : Prop :=
  match e with
  | EvProgress _ _ _ | EvSleep _ => True
  | _ => False
  end.

(** The events of one iteration of the collection loop on the point [p]:
    the marine request, then the elevation request unless the cache
    answers, then progress and pause. *)
Definition point_events (p : latlon) (evs : list event) : Prop :=
  exists fetch tail,
    evs = EvMarine (lat p) (lon p) :: fetch ++ tail /\
    (fetch = [] \/ fetch = [EvElevation (lat p) (lon p)]) /\
    Forall is_local tail.


(** The weighted sum of six sub-scores. *)
Definition weighted_sum (w : Analyzer.weights)
    (weather sea depth flight fire dist : Q) : Q :=
  weather * Analyzer.w_weather w + sea * Analyzer.w_sea_state w
  + depth * Analyzer.w_depth w + flight * Analyzer.w_flight_ops w
  + fire * Analyzer.w_fire_support w + dist * Analyzer.w_distance w.

(** The same sum in binary64, added left to right as [sum(w.values())]
    does.  [binary64 q] is the double nearest to the non-negative decimal
    literal [q]: numerator and denominator are below 2^53, so both are
    doubles, and the division of IEEE 754 rounds to nearest. *)
Definition binary64 (q : Q) : float :=
  PrimFloat.div (PrimFloat.of_uint63 (Uint63.of_Z (Qnum q)))
    (PrimFloat.of_uint63 (Uint63.of_Z (Zpos (Qden q)))).

Definition weights_sum_binary64 (w : Analyzer.weights) : float :=
  fold_left PrimFloat.add
    (map binary64
       [Analyzer.w_weather w; Analyzer.w_sea_state w; Analyzer.w_depth w;
        Analyzer.w_flight_ops w; Analyzer.w_fire_support w; Analyzer.w_distance w])
    (binary64 0).



(** ** Concrete inputs used by the examples *)

Definition inputs_default : inputs :=
  Inputs None (LatLon 0 0) (LatLon 0 0) None "0.0000, 0.0000" None None None ""
    [] ∅ None None None None.

Definition weather_c6 : gmap string Q :=
  {[ "wind_speed_10m" := 25; "visibility" := 5000;
     "cloud_cover" := 80; "precipitation" := 6 ]}.

Definition vessel_lha : vessel :=
  Vessel "LHA/LHD" "LHA/LHD" (Some 27) (Some 65) (Some 844)
    (Some true) (Some true) (Some false).

Definition vessel_ddg : vessel :=
  Vessel "DDG" "DDG" (Some 20.5) (Some 50) (Some 509)
    (Some false) (Some false) (Some true).

Definition bathy_ocean (depth_ft : Q) : bathy_dict :=
  BathyDict (Some (depth_ft / 3.28084)) (Some depth_ft) (Some true) (Some false)
    (Some "OpenTopoData GEBCO2020"%string).

Definition weather_calm : gmap string Q :=
  {[ "wind_speed_10m" := 15; "visibility" := 10000;
     "cloud_cover" := 40; "precipitation" := 0 ]}.

Definition marine_calm : gmap string Q :=
  {[ "wave_height" := 2; "swell_wave_height" := 1;
     "ocean_current_velocity" := 0.5 ]}.

Definition point_calm : point_data :=
  PointData 11.6808 92.5566 (Some weather_calm) (Some marine_calm)
    (Some (bathy_ocean 120)) (Some 6) (Some 8).

Definition inputs_gunfire : inputs :=
  Inputs (Some "naval_gunfire_support"%string) (LatLon 11.8269 92.5228)
    (LatLon 11.5347 92.5903) None "11.6808, 92.5566" None None None
    "11.6689, 92.5916" [vessel_lha; vessel_ddg] ∅ None None None None.

Definition location_center : place :=
  Place 11.6808 92.5566 "Custom Location (11.6808, 92.5566)".

Definition location_target : place :=
  Place 11.6689 92.5916 "Custom Location (11.6689, 92.5916)".

Definition metadata_of (n : nat) : metadata :=
  Metadata "2024-01-01T00:00:00" n n 0 {[ "OpenTopoData GEBCO2020"%string := n ]}.

Definition data_calm : data :=
  Data location_center (Some location_target) [] [point_calm] None (metadata_of 1).

(** Three collected points: the first and the third score the same, the
    second scores higher. *)
Definition point_near : point_data :=
  PointData 11.70 92.55 (Some weather_calm) (Some marine_calm)
    (Some (bathy_ocean 120)) (Some 3) (Some 8).

Definition point_near' : point_data :=
  PointData 11.71 92.56 (Some weather_calm) (Some marine_calm)
    (Some (bathy_ocean 120)) (Some 4) (Some 8).

Definition data_three : data :=
  Data location_center (Some location_target) []
    [point_near; point_calm; point_near'] None (metadata_of 3).

(** A small interpreter library for the examples: coarse rational
    approximations of the [math] functions, and [float(str)] on plain
    decimal notation. *)
Module ExampleLib.

Definition pi : Q := 355 # 113.

Definition sin (x : Q) : Q := Qred (x - x ^ 3 / 6 + x ^ 5 / 120).
Definition cos (x : Q) : Q := Qred (1 - x ^ 2 / 2 + x ^ 4 / 24).

Definition atan (z : Q) : Q := Qred (z / (1 + 0.28 * z ^ 2)).

Definition atan2 (y x : Q) : Q :=
  if Py.gt x 0 then atan (y / x)
  else if Py.lt x 0 then (if Py.lt y 0 then atan (y / x) - pi else atan (y / x) + pi)
  else if Py.gt y 0 then pi / 2
  else if Py.lt y 0 then - (pi / 2)
  else 0.

Definition asin (x : Q) : res Q :=
  if Py.lt x (-1) || Py.gt x 1 then Raise (ValueError "math domain error")
  else Ok (Qred (x + x ^ 3 / 6)).

Definition sqrt (x : Q) : res Q :=
  if Py.lt x 0 then Raise (ValueError "math domain error")
  else Ok (Qred (Z.sqrt (Qnum x * Zpos (Qden x)) # Qden x)).

Definition radians (x : Q) : Q := Qred (x * pi / 180).
Definition degrees (x : Q) : Q := Qred (x * 180 / pi).

Definition digit (a : ascii) : option Z :=
  let n := nat_of_ascii a in
  if (Nat.leb 48 n && Nat.leb n 57)%bool then Some (Z.of_nat (n - 48)) else None.

(** The value of a run of digits and ten to the number of digits. *)
Fixpoint digits (s : string) (acc pow : Z) : option (Z * Z) :=
  match s with
  | EmptyString => Some (acc, pow)
  | String a s' =>
    match digit a with
    | Some d => digits s' (acc * 10 + d)%Z (pow * 10)%Z
    | None => None
    end
  end.

Definition unsigned (s : string) : option Q :=
  match Py.split "." s with
  | [whole] =>
    match whole, digits whole 0 1 with
    | String _ _, Some (n, _) => Some (inject_Z n)
    | _, _ => None
    end
  | [whole; frac] =>
    match digits whole 0 1, digits frac 0 1 with
    | Some (n, _), Some (f, p) =>
      if (String.length whole + String.length frac =? 0)%nat then None
      else Some (Qred (inject_Z n + (f # Z.to_pos p)))
    | _, _ => None
    end
  | _ => None
  end.

Definition float_of_string (s : string) : option Q :=
  match Py.strip s with
  | String "-" s' => Qopp <$> unsigned s'
  | String "+" s' => unsigned s'
  | s' => unsigned s'
  end.

Definition lib : pylib :=
  PyLib sin cos atan2 asin sqrt radians degrees float_of_string.

End ExampleLib.

(** A library under which every bearing is [b] degrees. *)
Definition lib_bearing (b : Q) : pylib :=
  PyLib (fun _ => 0) (fun _ => 0) (fun _ _ => 0) ExampleLib.asin ExampleLib.sqrt
    (fun x => x) (fun _ => b) ExampleLib.float_of_string.

(** Networks for the examples: the elevation service answers [elev] for
    every point (12 m: land; -40 m: ocean), or fails; the other services
    fail or answer nothing. *)
Definition net_elev (elev : http (list elevation)) : network :=
  Network (fun _ _ => Failed) (fun _ _ _ => Failed) (fun _ _ _ => Json None)
    (fun _ _ _ => elev) (fun _ _ _ => Failed) (fun _ => "2024-01-01T00:00:00"%string).

Definition net_land : network := net_elev (Json [ElevNum 12]).
Definition net_ocean : network := net_elev (Json [ElevNum (-40)]).
Definition net_down : network := net_elev Failed.

(** Inputs with the center of the end-to-end scenario and a grid of radius
    [r] nm at 1 nm spacing. *)
Definition inputs_radius (r : Q) : inputs :=
  Inputs (Some "amphibious_landing"%string) (LatLon 11.8269 92.5228)
    (LatLon 11.5347 92.5903) None "11.6808, 92.5566" None None None ""
    [vessel_lha; vessel_ddg] ∅ (Some r) (Some 1.0) None None.

Definition world0 : Collector.world := Collector.World [] Bathymetry.new_service.

(** ** Vocabulary of the further properties *)

(** A score on the scale of the scorer. *)
Definition in_scale (s : Q) : Prop := 0 <= s /\ s <= 100.



(** The same for [score_sea_state] and a zero [max_wave_height_ft]. *)
Definition sea_divides_by_zero (inp : inputs) (m : option (gmap string Q)) : Prop :=
  exists d, m = Some d /\ d <> ∅ /\
    get_float (in_weather_thresholds inp) "max_wave_height_ft" 6 == 0 /\
    or_ (get_float d "wave_height" 0) 0 <= 0.





(** What the flight-operations scorer reads of a point. *)
Definition has_flight_deck (vs : list vessel) : bool :=
  existsb (fun v => default false (v_has_flight_deck v)) vs.

Definition has_gun (vs : list vessel) : bool :=
  existsb (fun v => default false (v_has_5_inch_gun v)) vs.

Definition read_or_zero (d : gmap string Q) (k : string) : Q :=
  or_ (get_float d k 0) 0.

(** The distance to the target the fire-support scorer reads: an absent
    or zero distance counts as 1e9. *)
Definition target_distance_read (p : point_data) : Q :=
  or_ (default 1e9 (pt_distance_from_target_nm p)) 1e9.

(** The depth the fire-support scorer reads. *)
Definition point_depth_read (p : point_data) : Q :=
  or_ (default 0 (bd_depth_ft (default (BathyDict None None None None None)
                                       (pt_bathymetry p)))) 0.

(** The bounds of the distance band: an absent or zero bound is the
    default. *)
Definition min_shore (inp : inputs) : Q := or_ (default 5 (in_min_distance_shore_nm inp)) 5.
Definition max_shore (inp : inputs) : Q := or_ (default 50 (in_max_distance_shore_nm inp)) 50.
Definition center_distance_read (p : point_data) : Q :=
  or_ (default 0 (pt_distance_from_center_nm p)) 0.

Definition point_at_target : point_data :=
  PointData 11.6689 92.5916 (Some weather_calm) (Some marine_calm)
    (Some (bathy_ocean 120)) (Some 2) (Some 0).

Definition inputs_band (lo hi : option Q) : inputs :=
  Inputs None (LatLon 0 0) (LatLon 0 0) None "0.0000, 0.0000" None None None ""
    [] ∅ None None lo hi.

(** A bathymetry result whose fields agree with each other: a depth in
    metres that is not negative, the same depth in feet, no depth on
    land, and the flag [estimated] exactly on the fallback. *)
Definition consistent_result (r : Bathymetry.BathymetryResult) : Prop :=
  exists m ft,
    Bathymetry.depth_m r = Some m /\ Bathymetry.depth_ft r = Some ft /\
    0 <= m /\ ft == m * Bathymetry.M_TO_FT /\
    (Bathymetry.is_ocean r = false -> m == 0) /\
    (Bathymetry.estimated r = true <->
     Bathymetry.source r = "Fallback estimate"%string).

(** The cache keys of a list of coordinates. *)
Definition keys_of (coords : list (Q * Q)) : gset string :=
  list_to_set (map (fun c => Bathymetry.cache_key c.1 c.2) coords).

(** The two numbers [geocode_location] reads off a string with a comma:
    the parts before the first and before the second comma, stripped
    and converted. *)
Definition parsed_pair (L : pylib) (location : string) : option (Q * Q) :=
  if contains "," location then
    match float_of_string L (strip (nth 0 (split "," location) EmptyString)),
          float_of_string L (strip (nth 1 (split "," location) EmptyString)) with
    | Some lat, Some lon => Some (lat, lon)
    | _, _ => None
    end
  else None.

(** The name [geocode_location] gives to a parsed pair. *)
Definition custom_name (lat lon : Q) : string :=
  "Custom Location (" +:+ format_fixed 4 lat +:+ ", " +:+ format_fixed 4 lon +:+ ")".

(** The five forecast requests of [get_regional_weather], in order. *)
Definition forecast_requests (lat lon : Q) : list event :=
  map (fun d => EvForecast (lat + d.1) (lon + d.2)) Collector.offsets.

(** A network whose forecast service answers only the third request. *)
Definition net_third : network :=
  Network (fun _ _ => Json []) 
    (fun h _ _ => if (length h =? 2)%nat then Json (Some weather_calm) else Failed)
    (fun _ _ _ => Json None) (fun _ _ _ => Failed) (fun _ _ _ => Failed)
    (fun _ => "2024-01-01T00:00:00"%string).

(** ** app.py: reading a coordinate pair *)

Module App.

(** [_parse_latlon]: the text must split at commas into exactly two
    parts, each a float once stripped.  The message of the conversion
    error is the one Python gives for a string without quotes or
    escapes. *)
Definition _parse_latlon (L : pylib) (text : string) : res latlon :=
  match split "," text with
  | [lat_s; lon_s] =>
    match float_of_string L (strip lat_s) with
    | None =>
      Raise (ValueError ("could not convert string to float: '" +:+ strip lat_s +:+ "'"))
    | Some lat =>
      match float_of_string L (strip lon_s) with
      | None =>
        Raise (ValueError ("could not convert string to float: '" +:+ strip lon_s +:+ "'"))
      | Some lon => Ok (LatLon lat lon)
      end
    end
  | [_] => Raise (ValueError "not enough values to unpack (expected 2, got 1)")
  | _ => Raise (ValueError "too many values to unpack (expected 2)")
  end.

End App.

(** The number of occurrences of a character in a string. *)
Fixpoint count_char (c : ascii) (s : string) : nat :=
  match s with
  | EmptyString => 0
  | String a s' => (if Ascii.eqb a c then 1 else 0) + count_char c s'
  end.

(** All characters of a string satisfy a test. *)
Fixpoint all_chars (P : ascii -> bool) (s : string) : bool :=
  match s with
  | EmptyString => true
  | String a s' => P a && all_chars P s'
  end.

(** Neither white space nor a comma. *)
Definition plain_char (a : ascii) : bool :=
  negb (is_space a) && negb (Ascii.eqb a ",").

(** Row-major order of grid points: by latitude, then by longitude. *)
Definition before (p q : latlon) : Prop :=
  lat p < lat q \/ (lat p == lat q /\ lon p < lon q).

(** What a progress report and a pause carry. *)
Definition progress_of (e : event) : option (nat * nat * CollectorStats) :=
  match e with
  | EvProgress done total stats => Some (done, total, stats)
  | _ => None
  end.

Definition sleep_of (e : event) : option Q :=
  match e with
  | EvSleep seconds => Some seconds
  | _ => None
  end.

(** The number of points counted in a histogram of bathymetry sources. *)
Definition histogram_total (h : gmap string nat) : nat :=
  map_fold (fun _ n acc => (n + acc)%nat) 0%nat h.

(** The coordinates of an analyzed point. *)
Definition coordinates (p : point_data) : latlon := LatLon (pt_lat p) (pt_lon p).

(** An analyzed point as the loop builds it: the regional weather of the
    run, a distance from the center, and a distance from the target
    exactly when the run has a target. *)
Definition built_point (region_weather : gmap string Q) (target : option place)
    (p : point_data) : Prop :=
  pt_weather p = Some region_weather /\
  pt_distance_from_center_nm p <> None /\
  (pt_distance_from_target_nm p = None <-> target = None).

(** The reports a run with a progress callback makes over [n] points
    from index [i]: one per point, numbered from [i + 1], each with the
    total and with statistics that count the points done so far. *)
Definition reports_ok (i n total base : nat) (reports : list (nat * nat * CollectorStats))
    : Prop :=
  Forall2 (fun k r => r.1.1 = k /\ r.1.2 = total /\
                      (ocean_points r.2 + land_points r.2 + i = base + k)%nat)
    (seq (i + 1) n) reports.

(** Inputs whose center is given by name. *)
Definition inputs_named : inputs :=
  Inputs (Some "amphibious_landing"%string) (LatLon 11.8269 92.5228)
    (LatLon 11.5347 92.5903) None "Port Blair" None None None ""
    [vessel_lha; vessel_ddg] ∅ (Some 1) (Some 1.0) None None.

(** ** The map colours *)

Module Visualizer.

Definition _score_to_color (score : Q) : string :=
  if ge score 85 then "green"
  else if ge score 70 then "blue"
  else if ge score 55 then "orange"
  else if ge score 40 then "red"
  else "darkred".

End Visualizer.

(** The five colours from worst to best. *)
Definition color_rank (color : string) : nat :=
  if String.eqb color "green" then 4
  else if String.eqb color "blue" then 3
  else if String.eqb color "orange" then 2
  else if String.eqb color "red" then 1
  else 0.

(** * Properties *)

(** ** Comparisons and arithmetic of the Python layer *)

Lemma lt_true (x y : Q) : Py.lt x y = true <-> x < y.
Proof.
  unfold Py.lt. destruct (Qlt_le_dec x y) as [H | H]; split; intros; try done.
  exfalso. lra.
Qed.

Lemma lt_false (x y : Q) : Py.lt x y = false <-> y <= x.
Proof.
  unfold Py.lt. destruct (Qlt_le_dec x y) as [H | H]; split; intros; try done.
  exfalso. lra.
Qed.

Lemma gt_true (x y : Q) : Py.gt x y = true <-> y < x.
Proof. apply lt_true. Qed.

Lemma gt_false (x y : Q) : Py.gt x y = false <-> x <= y.
Proof. apply lt_false. Qed.

Lemma le_true (x y : Q) : Py.le x y = true <-> x <= y.
Proof. unfold Py.le. rewrite negb_true_iff. apply lt_false. Qed.

Lemma le_false (x y : Q) : Py.le x y = false <-> y < x.
Proof. unfold Py.le. rewrite negb_false_iff. apply lt_true. Qed.

(** Case analysis on every comparison of the goal, keeping the order
    facts as hypotheses. *)
Ltac cmp_cases :=
  repeat match goal with
  | |- context [Py.lt ?x ?y] =>
      let H := fresh "Hc" in
      destruct (Py.lt x y) eqn:H;
      [apply lt_true in H | apply lt_false in H]
  | |- context [Py.gt ?x ?y] =>
      let H := fresh "Hc" in
      destruct (Py.gt x y) eqn:H;
      [apply gt_true in H | apply gt_false in H]
  | |- context [Py.le ?x ?y] =>
      let H := fresh "Hc" in
      destruct (Py.le x y) eqn:H;
      [apply le_true in H | apply le_false in H]
  end.

Lemma max_spec (a b : Q) :
  (a < b /\ Py.max a b = b) \/ (b <= a /\ Py.max a b = a).
Proof. unfold Py.max. cmp_cases; auto. Qed.

Lemma min_spec (a b : Q) :
  (b < a /\ Py.min a b = b) \/ (a <= b /\ Py.min a b = a).
Proof. unfold Py.min. cmp_cases; auto. Qed.

Lemma max_ge_l (a b : Q) : a <= Py.max a b.
Proof. destruct (max_spec a b) as [[? ->] | [? ->]]; lra. Qed.

Lemma max_ge_r (a b : Q) : b <= Py.max a b.
Proof. destruct (max_spec a b) as [[? ->] | [? ->]]; lra. Qed.

Lemma div_ok (x y : Q) : ~ y == 0 -> Py.div x y = Ok (x / y).
Proof.
  intros H. unfold Py.div. destruct (Qeq_bool y 0) eqn:E; [|done].
  apply Qeq_bool_iff in E. contradiction.
Qed.

Lemma div_zero (x y : Q) : y == 0 -> Py.div x y = Raise ZeroDivisionError.
Proof. intros H. unfold Py.div. by rewrite (Qeq_eq_bool _ _ H). Qed.

Lemma div_max1 (x y : Q) : Py.div x (Py.max 1.0 y) = Ok (x / Py.max 1.0 y).
Proof. apply div_ok. pose proof (max_ge_l 1.0 y). lra. Qed.

(** The clamp [max(0.0, min(100.0, s))]. *)
Lemma clamp_pos (s : Q) : 0 < Py.max 0.0 (Py.min 100.0 s) <-> 0 < s.
Proof.
  destruct (min_spec 100.0 s) as [[? ->] | [? ->]];
    [destruct (max_spec 0.0 s) as [[? ->] | [? ->]]
    |destruct (max_spec 0.0 100.0) as [[? ->] | [? ->]]]; lra.
Qed.

(** ** Weather sub-score (C6) *)

Section ScoreWeather.
Import Analyzer.

Lemma quotient_le_1 (c m : Q) : 0 < m -> c <= m -> c / m <= 1.
Proof. intros Hm Hc. apply Qle_shift_div_r; lra. Qed.

Lemma quotient_sign (a m : Q) :
  0 < m -> (0 <= a -> 0 <= a / m) /\ (0 < a -> 0 < a / m) /\ (a <= 0 -> a / m <= 0).
Proof.
  intros Hm. repeat split; intros Ha.
  - apply Qle_shift_div_l; lra.
  - apply Qlt_shift_div_l; lra.
  - apply Qle_shift_div_r; lra.
Qed.

(** C6, as the code has it.  A wind above [max_wind_speed_kts] scores
    exactly 0.  With the wind exactly at a non-zero [max_wind_speed_kts]
    and the visibility at least [min_visibility_m], the score is the
    clamped [70 - cloud penalty - precipitation penalty + visibility
    bonus]: it is strictly positive unless the cloud cover exceeds its
    threshold, the precipitation exceeds 5 and the visibility is exactly
    the minimum, where it is 0. *)
Theorem score_weather_wind_boundary (inp : inputs) (w : gmap string Q) :
  let th := in_weather_thresholds inp in
  let max_wind := get_float th "max_wind_speed_kts" 25 in
  let min_vis := get_float th "min_visibility_m" 5000 in
  let max_cloud := get_float th "max_cloud_cover_pct" 75 in
  let wind := get_float w "wind_speed_10m" 0 in
  let vis := get_float w "visibility" 0 in
  let cloud := get_float w "cloud_cover" 0 in
  let precip := get_float w "precipitation" 0 in
  (max_wind < wind -> score_weather inp (Some w) = Ok 0.0) /\
  (wind == max_wind -> ~ max_wind == 0 -> min_vis <= vis ->
   exists s, score_weather inp (Some w) = Ok s /\
     (0 < s <-> (cloud <= max_cloud \/ precip <= 5 \/ min_vis < vis))).
Proof.
  intros th max_wind min_vis max_cloud wind vis cloud precip. split.
  - intros Hw. unfold score_weather, _thresholds. case_bool_decide; [done|].
    fold th max_wind wind. apply gt_true in Hw. by rewrite Hw.
  - intros Hw Hz Hv. unfold score_weather, _thresholds.
    case_bool_decide as Hne.
    { exfalso. subst w. apply Hz. rewrite <- Hw. reflexivity. }
    fold th max_wind min_vis max_cloud wind vis cloud precip.
    assert (Hgt : Py.gt wind max_wind = false) by (apply gt_false; lra).
    assert (Hlt : Py.lt vis min_vis = false) by (apply lt_false; lra).
    rewrite Hgt, Hlt. rewrite (div_ok wind max_wind Hz), !div_max1.
    assert (Hq : wind / max_wind == 1) by (rewrite Hw; field; done).
    pose proof (max_ge_l 1.0 min_vis) as Hm.
    pose proof (max_ge_l 1.0 max_cloud) as Hmc.
    set (m := Py.max 1.0 min_vis) in *.
    set (mc := Py.max 1.0 max_cloud) in *.
    assert (Hmpos : 0 < m) by lra.
    destruct (quotient_sign (vis - min_vis) m Hmpos) as (Hb0 & Hb1 & Hb2).
    destruct (Py.gt cloud max_cloud) eqn:Hc;
      [apply gt_true in Hc | apply gt_false in Hc]; cbn.
    + eexists. split; [reflexivity|].
      rewrite clamp_pos.
      set (b := (vis - min_vis) / m) in *.
      destruct (min_spec 10.0 (b * 10.0)) as [[? ->] | [? ->]];
        cmp_cases; split; intros; try lra.
    + eexists. split; [reflexivity|].
      rewrite clamp_pos.
      pose proof (max_ge_r 1.0 max_cloud) as Hmc'. fold mc in Hmc'.
      assert (Hcq : cloud / mc <= 1) by (apply quotient_le_1; lra).
      set (c := cloud / mc) in *.
      set (b := (vis - min_vis) / m) in *.
      assert (0 <= b) by (apply Hb0; lra).
      destruct (min_spec 10.0 (b * 10.0)) as [[? ->] | [? ->]];
        cmp_cases; split; intros; try lra; auto.
Qed.

Lemma score_weather_wind_boundary_witness :
  score_weather inputs_default (Some {[ "wind_speed_10m" := 26 ]}) = Ok 0.0 /\
  exists s, score_weather inputs_default
              (Some {[ "wind_speed_10m" := 25; "visibility" := 10000 ]}) = Ok s /\
            0 < s.
Proof.
  split.
  - apply (proj1 (score_weather_wind_boundary inputs_default
                    {[ "wind_speed_10m" := 26 ]})).
    vm_compute. reflexivity.
  - destruct (proj2 (score_weather_wind_boundary inputs_default
                       {[ "wind_speed_10m" := 25; "visibility" := 10000 ]}))
      as (s & Hs & Hpos); [vm_compute; congruence .. |].
    exists s. split; [exact Hs|]. apply Hpos. left. vm_compute. congruence.
Defined.

(** C6 as stated fails: wind exactly at the maximum and visibility at the
    minimum, under heavy cloud and heavy precipitation, scores 0. *)
Lemma score_weather_boundary_zero :
  get_float weather_c6 "wind_speed_10m" 0
    == get_float (in_weather_thresholds inputs_default) "max_wind_speed_kts" 25 /\
  get_float (in_weather_thresholds inputs_default) "min_visibility_m" 5000
    <= get_float weather_c6 "visibility" 0 /\
  exists s, score_weather inputs_default (Some weather_c6) = Ok s /\ ~ 0 < s.
Proof.
  split; [reflexivity|]. split; [vm_compute; discriminate|].
  eexists. split; [vm_compute; reflexivity|]. vm_compute. discriminate.
Qed.

End ScoreWeather.

(** ** Depth sub-score (C10) *)

Section ScoreDepth.
Import Analyzer.

(** [min_depth_required] is the largest per-vessel requirement. *)
Lemma fold_max_ge (f : vessel -> Q) (vs : list vessel) (m0 : Q) :
  m0 <= fold_left (fun m v => Py.max m (f v)) vs m0 /\
  Forall (fun v => f v <= fold_left (fun m v => Py.max m (f v)) vs m0) vs.
Proof.
  revert m0. induction vs as [|v vs IH]; intros m0; cbn.
  - split; [lra | constructor].
  - destruct (IH (Py.max m0 (f v))) as [H1 H2].
    pose proof (max_ge_l m0 (f v)). pose proof (max_ge_r m0 (f v)).
    split; [lra|]. constructor; [lra | exact H2].
Qed.

Lemma fold_max_attained (f : vessel -> Q) (vs : list vessel) (m0 : Q) :
  fold_left (fun m v => Py.max m (f v)) vs m0 = m0 \/
  Exists (fun v => fold_left (fun m v => Py.max m (f v)) vs m0 = f v) vs.
Proof.
  revert m0. induction vs as [|v vs IH]; intros m0; cbn; [by left|].
  destruct (IH (Py.max m0 (f v))) as [H | H].
  - rewrite H. destruct (max_spec m0 (f v)) as [[_ ->] | [_ ->]].
    + right. by constructor.
    + by left.
  - right. by constructor 2.
Qed.

Lemma min_depth_required_is_max (v : vessel) (vs : list vessel) :
  Forall (fun v' => vessel_min_depth v' <= min_depth_required (v :: vs)) (v :: vs) /\
  Exists (fun v' => min_depth_required (v :: vs) = vessel_min_depth v') (v :: vs).
Proof.
  cbn. destruct (fold_max_ge vessel_min_depth vs (vessel_min_depth v)) as [H1 H2].
  split; [by constructor|].
  destruct (fold_max_attained vessel_min_depth vs (vessel_min_depth v)) as [H | H].
  - by constructor.
  - by constructor 2.
Qed.

(** C10.  The depth sub-score is one of 0, 50, 80 and 100: 50 when the
    bathymetry is missing, 0 when it is not ocean or the depth is below
    the formation's requirement, 100 from the requirement up to 300 ft,
    80 above 300 ft.  The three guards in front of the linear branch
    cannot all fail, so that branch is never taken. *)
Theorem score_depth_four_values (bathy : option bathy_dict) (vessels : list vessel) :
  let req := min_depth_required vessels in
  (score_depth bathy vessels = 0.0 \/ score_depth bathy vessels = 50.0 \/
   score_depth bathy vessels = 80.0 \/ score_depth bathy vessels = 100.0) /\
  (bathy = None -> score_depth bathy vessels = 50.0) /\
  (forall b, bathy = Some b -> bathy_empty b = true ->
     score_depth bathy vessels = 50.0) /\
  (forall b, bathy = Some b -> bathy_empty b = false ->
     (bd_is_ocean b = Some false -> score_depth bathy vessels = 0.0) /\
     (bd_is_ocean b <> Some false ->
        (depth_read b < req -> score_depth bathy vessels = 0.0) /\
        (req <= depth_read b <= 300 -> score_depth bathy vessels = 100.0) /\
        (req <= depth_read b -> 300 < depth_read b ->
           score_depth bathy vessels = 80.0))) /\
  (forall d : Q,
     ~ (Py.lt d req = false /\ Py.le req d && Py.le d 300 = false /\
        Py.gt d 300 = false)).
Proof.
  intros req. repeat split.
  - unfold score_depth. destruct bathy as [b|]; [|auto].
    destruct (bathy_empty b); [auto|].
    destruct (negb _); [auto|]. fold req. cbn.
    cmp_cases; cbn; auto; exfalso; lra.
  - by intros ->.
  - intros b -> Hb. cbn. by rewrite Hb.
  - intros Ho. subst bathy. cbn. rewrite H0, Ho. done.
  - intros Hd. subst bathy. unfold score_depth. rewrite H0.
    destruct (bd_is_ocean b) as [[|]|]; try done; cbn; fold req (depth_read b);
      apply lt_true in Hd; by rewrite Hd.
  - intros [Hd1 Hd2]. subst bathy. unfold score_depth. rewrite H0.
    assert (E1 : Py.lt (depth_read b) req = false) by (by apply lt_false).
    assert (E2 : Py.le req (depth_read b) = true) by (by apply le_true).
    assert (E3 : Py.le (depth_read b) 300 = true) by (by apply le_true).
    destruct (bd_is_ocean b) as [[|]|]; try done; cbn; fold req (depth_read b);
      by rewrite E1, E2, E3.
  - intros Hd1 Hd2. subst bathy. unfold score_depth. rewrite H0.
    assert (E1 : Py.lt (depth_read b) req = false) by (by apply lt_false).
    assert (E3 : Py.le (depth_read b) 300 = false) by (by apply le_false).
    assert (E4 : Py.gt (depth_read b) 300 = true) by (by apply gt_true).
    destruct (bd_is_ocean b) as [[|]|]; try done; cbn; fold req (depth_read b);
      by rewrite E1, E3, E4, andb_false_r.
  - intros d (H1 & H2 & H3).
    apply lt_false in H1. apply gt_false in H3.
    apply andb_false_iff in H2 as [H2 | H2]; apply le_false in H2; lra.
Qed.

Lemma score_depth_four_values_witness :
  score_depth None [vessel_lha] = 50.0 /\
  score_depth (Some (bathy_ocean 40)) [vessel_lha; vessel_ddg] = 0.0 /\
  score_depth (Some (bathy_ocean 120)) [vessel_lha; vessel_ddg] = 100.0 /\
  score_depth (Some (bathy_ocean 400)) [vessel_lha; vessel_ddg] = 80.0.
Proof.
  pose proof (score_depth_four_values None [vessel_lha]) as (_ & HN & _).
  split; [by apply HN|].
  pose proof (fun d => score_depth_four_values (Some (bathy_ocean d))
                [vessel_lha; vessel_ddg]) as H.
  split; [|split].
  - destruct (H 40) as (_ & _ & _ & H40 & _).
    destruct (H40 _ eq_refl eq_refl) as [_ Hoc].
    apply Hoc; [done|]. vm_compute. reflexivity.
  - destruct (H 120) as (_ & _ & _ & H120 & _).
    destruct (H120 _ eq_refl eq_refl) as [_ Hoc].
    apply Hoc; [done|]. split; vm_compute; discriminate.
  - destruct (H 400) as (_ & _ & _ & H400 & _).
    destruct (H400 _ eq_refl eq_refl) as [_ Hoc].
    apply Hoc; [done| vm_compute; discriminate | vm_compute; reflexivity].
Defined.

End ScoreDepth.

(** ** Mission weights and the overall score (C7) *)

Section MissionWeights.
Import Analyzer.


(** In binary64 the sums are not all exactly 1.0 (the gunfire vector
    sums to 0.99999999999999989), but each is within 1e-9 of it. *)
Lemma weights_sum_binary64_close (mission : string) :
  PrimFloat.leb
    (PrimFloat.abs
       (PrimFloat.sub (weights_sum_binary64 (_weights_for_mission mission))
          (binary64 1)))
    (binary64 1e-9) = true.
Proof.
  unfold _weights_for_mission.
  repeat match goal with
         | |- context [String.eqb ?a ?b] => destruct (String.eqb a b)
         end; vm_compute; reflexivity.
Qed.

Lemma weights_sum_binary64_gunfire :
  PrimFloat.eqb (weights_sum_binary64 (_weights_for_mission "naval_gunfire_support"))
    (binary64 1) = false.
Proof. vm_compute. reflexivity. Qed.



End MissionWeights.

(** ** Ranking (C8) *)

Section Ranking.
Import Analyzer.

Context {A : Type} (key : A -> Q).

Lemma insert_desc_perm (x : A) (l : list A) :
  Permutation (insert_desc key x l) (x :: l).
Proof.
  induction l as [|y ys IH]; cbn; [done|].
  destruct (Py.lt (key x) (key y)); [|done].
  rewrite IH. apply perm_swap.
Qed.

Lemma sort_reverse_perm (l : list A) : Permutation (sort_reverse key l) l.
Proof.
  induction l as [|x xs IH]; cbn; [done|].
  rewrite insert_desc_perm. by constructor.
Qed.

Lemma insert_desc_sorted (x : A) (l : list A) :
  StronglySorted (fun a b => key b <= key a) l ->
  StronglySorted (fun a b => key b <= key a) (insert_desc key x l).
Proof.
  induction 1 as [|y ys Hys IH Hall]; cbn.
  - repeat constructor.
  - destruct (Py.lt (key x) (key y)) eqn:E.
    + apply lt_true in E. constructor; [exact IH|].
      apply Forall_forall. intros z Hz.
      rewrite (insert_desc_perm x ys) in Hz.
      apply elem_of_cons in Hz as [-> | Hz]; [lra|].
      rewrite Forall_forall in Hall. by apply Hall.
    + apply lt_false in E. constructor; [by constructor|].
      constructor; [exact E|].
      apply Forall_forall. intros z Hz.
      rewrite Forall_forall in Hall. specialize (Hall z Hz). lra.
Qed.

Lemma sort_reverse_sorted (l : list A) :
  StronglySorted (fun a b => key b <= key a) (sort_reverse key l).
Proof.
  induction l as [|x xs IH]; cbn; [constructor|].
  by apply insert_desc_sorted.
Qed.

(** Inserting [x] moves it past elements with a strictly larger key
    only, so the elements of any one key keep their order. *)
Lemma insert_desc_stable (v : Q) (x : A) (l : list A) :
  List.filter (fun a => Qeq_bool (key a) v) (insert_desc key x l) =
  List.filter (fun a => Qeq_bool (key a) v) (x :: l).
Proof.
  induction l as [|y ys IH]; [done|].
  cbn [insert_desc]. destruct (Py.lt (key x) (key y)) eqn:E; [|done].
  apply lt_true in E. cbn [List.filter] in *. rewrite IH.
  destruct (Qeq_bool (key x) v) eqn:Ex; [|done].
  destruct (Qeq_bool (key y) v) eqn:Ey; [|done].
  apply Qeq_bool_iff in Ex, Ey. exfalso. lra.
Qed.

Lemma sort_reverse_stable (v : Q) (l : list A) :
  List.filter (fun a => Qeq_bool (key a) v) (sort_reverse key l) =
  List.filter (fun a => Qeq_bool (key a) v) l.
Proof.
  induction l as [|x xs IH]; [done|].
  cbn [sort_reverse foldr]. rewrite insert_desc_stable.
  cbn [List.filter]. fold (sort_reverse key xs). by rewrite IH.
Qed.

End Ranking.

Section Analyze.
Import Analyzer.

Lemma score_all_Forall2 (inp : inputs) (dat : data) (points : list point_data)
    (scored : list scored_point) :
  score_all inp dat points = Ok scored ->
  Forall2 (fun p s => score_point inp dat p = Ok s) points scored.
Proof.
  revert scored. induction points as [|p ps IH]; intros scored H; cbn in H.
  - injection H as <-. constructor.
  - destruct (score_point inp dat p) as [s|e|] eqn:Es; [|discriminate..].
    cbn in H. destruct (score_all inp dat ps) as [rest|e|] eqn:Er; [|discriminate..].
    cbn in H. injection H as <-. constructor; [exact Es | by apply IH].
Qed.

(** The scorer returns whenever no threshold it divides by is zero. *)
Lemma score_all_total (inp : inputs) (dat : data) (points : list point_data) :
  ~ get_float (in_weather_thresholds inp) "max_wind_speed_kts" 25 == 0 ->
  ~ get_float (in_weather_thresholds inp) "max_wave_height_ft" 6 == 0 ->
  exists scored, score_all inp dat points = Ok scored.
Proof.
  intros Hwind Hwave. induction points as [|p ps [rest IH]]; cbn; [by eexists|].
  assert (Hw : exists w, score_weather inp (pt_weather p) = Ok w).
  { unfold score_weather, _thresholds. destruct (pt_weather p) as [w|]; [|by eexists].
    case_bool_decide; [by eexists|].
    repeat match goal with
           | |- context [if ?b then _ else _] => destruct b; try by eexists
           end;
      rewrite ?div_max1, ?(div_ok _ _ Hwind); cbn; by eexists. }
  assert (Hs : exists s, score_sea_state inp (pt_marine p) = Ok s).
  { unfold score_sea_state, _thresholds. destruct (pt_marine p) as [m|]; [|by eexists].
    case_bool_decide; [by eexists|].
    destruct (Py.gt _ _); [by eexists|].
    rewrite (div_ok _ _ Hwave); cbn; by eexists. }
  destruct Hw as [w Hw], Hs as [s Hs].
  unfold score_point, calculate_scores. rewrite Hw, Hs. cbn. rewrite IH. cbn.
  by eexists.
Qed.

(** C8.  The list [analyze] returns holds the scored points in
    descending order of [overall], and the points of any one overall
    score are in the order in which they were collected. *)
Theorem analyze_sorted_stable (inp : inputs) (dat : data)
    (scored : list scored_point) :
  analyze inp dat = Ok scored ->
  StronglySorted overall_ge scored /\
  exists collected,
    Forall2 (fun p s => score_point inp dat p = Ok s)
      (d_analyzed_points dat) collected /\
    Permutation scored collected /\
    forall v, with_overall v scored = with_overall v collected.
Proof.
  unfold analyze. intros H.
  destruct (score_all inp dat (d_analyzed_points dat)) as [collected|e|] eqn:E;
    [|discriminate..].
  cbn in H. injection H as <-. split.
  - apply (sort_reverse_sorted (fun x => overall (sp_scores x))).
  - exists collected. split; [by apply score_all_Forall2|]. split.
    + apply sort_reverse_perm.
    + intros v. apply (sort_reverse_stable (fun x => overall (sp_scores x))).
Qed.

Lemma analyze_sorted_stable_witness :
  exists scored,
    analyze inputs_gunfire data_three = Ok scored /\
    StronglySorted overall_ge scored /\
    map sp_lat scored = [pt_lat point_calm; pt_lat point_near; pt_lat point_near'] /\
    map sp_lat (with_overall 87.2 scored) = [pt_lat point_near; pt_lat point_near'].
Proof.
  set (scored := match analyze inputs_gunfire data_three with
                 | Ok l => l
                 | _ => []
                 end).
  assert (H : analyze inputs_gunfire data_three = Ok scored)
    by (vm_compute; reflexivity).
  destruct (analyze_sorted_stable _ _ _ H) as [Hs (coll & HF & HP & Hst)].
  exists scored. split; [exact H|]. split; [exact Hs|].
  split; vm_compute; reflexivity.
Defined.

End Analyze.

(** ** Derived geometry (C3) *)

Section Geometry.
Import Planner.

Lemma Qfloor_unique (q : Q) (z : Z) :
  inject_Z z <= q -> q < inject_Z (z + 1) -> Qfloor q = z.
Proof.
  intros Hlo Hhi.
  pose proof (Qfloor_le q) as H1. pose proof (Qlt_floor q) as H2.
  assert (Ha : inject_Z z < inject_Z (Qfloor q + 1)) by lra.
  assert (Hb : inject_Z (Qfloor q) < inject_Z (z + 1)) by lra.
  rewrite <- Zlt_Qlt in Ha, Hb. lia.
Qed.

Lemma Qfloor_minus_Z (q : Q) (k : Z) :
  Qfloor (q - inject_Z k) = (Qfloor q - k)%Z.
Proof.
  apply Qfloor_unique.
  - pose proof (Qfloor_le q). unfold Z.sub.
    rewrite inject_Z_plus, inject_Z_opp. lra.
  - pose proof (Qlt_floor q) as H. unfold Z.sub.
    rewrite !inject_Z_plus, inject_Z_opp in *. lra.
Qed.

(** [%] absorbs an inner [%] of the same modulus. *)
Lemma mod_mod_plus (x y m : Q) :
  0 < m -> mod_ (mod_ x m + y) m == mod_ (x + y) m.
Proof.
  intros Hm. unfold mod_.
  set (k := Qfloor (x / m)).
  assert (E : (x - m * inject_Z k + y) / m == (x + y) / m - inject_Z k)
    by (field; lra).
  rewrite E, Qfloor_minus_Z. unfold Z.sub.
  rewrite inject_Z_plus, inject_Z_opp. ring.
Qed.

Lemma mod_proper (x x' m : Q) : x == x' -> mod_ x m == mod_ x' m.
Proof.
  intros E. unfold mod_.
  assert (F : Qfloor (x / m) = Qfloor (x' / m)).
  { apply Qfloor_comp. apply Qdiv_comp; [exact E | reflexivity]. }
  rewrite F. lra.
Qed.

(** C3.  The derived geometry: the center is the arithmetic mean of the
    two limits, the direction of attack is the bearing A->B plus 90
    modulo 360, the sector bounds are the direction of attack minus and
    plus 90 modulo 360, and so the upper bound is the lower bound plus
    180 modulo 360. *)
Theorem build_derived_geometry_spec (L : pylib) (inp : inputs) :
  let a := in_lateral_limit_a inp in
  let b := in_lateral_limit_b inp in
  let out := build_derived_geometry L inp in
  exists center doa smin smax,
    in_center_coords out = Some center /\
    in_direction_of_attack out = Some doa /\
    in_sector_min_bearing out = Some smin /\
    in_sector_max_bearing out = Some smax /\
    lat center == (lat a + lat b) / 2 /\
    lon center == (lon a + lon b) / 2 /\
    doa = mod_ (calculate_bearing L (lat a) (lon a) (lat b) (lon b) + 90.0) 360.0 /\
    smin = mod_ (doa - 90.0) 360.0 /\
    smax = mod_ (doa + 90.0) 360.0 /\
    smax == mod_ (smin + 180.0) 360.0.
Proof.
  intros a b out. unfold out, build_derived_geometry, calculate_midpoint.
  cbn [in_center_coords in_direction_of_attack in_sector_min_bearing
       in_sector_max_bearing].
  fold a b. do 4 eexists.
  split; [reflexivity|]. split; [reflexivity|]. split; [reflexivity|].
  split; [reflexivity|]. cbn [lat lon].
  split; [field|]. split; [field|].
  split; [reflexivity|]. split; [reflexivity|]. split; [reflexivity|].
  set (doa := calculate_perpendicular_bearing _).
  rewrite mod_mod_plus by reflexivity. apply mod_proper. ring.
Qed.

(** The end-to-end scenario of the specification: the center of the two
    limits, as the collector will read it back. *)
Example build_derived_geometry_center :
  in_center_location (build_derived_geometry ExampleLib.lib (inputs_radius 1))
  = "11.6808, 92.5566"%string.
Proof. vm_compute. reflexivity. Qed.

End Geometry.

(** ** Bathymetry service (C4, C9) *)

Section BathymetryService.
Import Bathymetry.

Lemma try_fetch_failure (resp : http (list elevation)) :
  fetch_failure resp -> exists e, try_fetch resp = Raise e.
Proof. destruct 1; cbn; by eexists. Qed.

(** C4.  When the service has no cached entry for the coordinate and the
    fetch fails, [get_bathymetry] still returns: the fallback record,
    50 m, 50 * 3.28084 = 164.042 ft, ocean, estimated, source
    "Fallback estimate".  The call returns in every case, as the
    collector sees it. *)
Theorem get_bathymetry_fallback (N : network) (history : list event)
    (svc : service) (lat lon : Q) :
  svc !! cache_key lat lon = None ->
  fetch_failure (net_elevation N history lat lon) ->
  (get_bathymetry N history svc lat lon).1.1 =
    BathyDict (Some 50.0) (Some (50.0 * 3.28084)) (Some true) (Some true)
      (Some "Fallback estimate"%string) /\
  50.0 * 3.28084 == 164.042 /\
  forall w, exists d w', Collector.get_bathymetry N lat lon w = (Ok d, w').
Proof.
  intros Hmiss Hfail. split; [|split].
  - unfold get_bathymetry. rewrite Hmiss.
    destruct (try_fetch_failure _ Hfail) as [e ->]. reflexivity.
  - reflexivity.
  - intros w. unfold Collector.get_bathymetry.
    destruct (get_bathymetry N _ _ lat lon) as [[d evs] svc']. by eexists _, _.
Qed.

Lemma get_bathymetry_fallback_witness :
  (get_bathymetry net_down [] new_service 11.6808 92.5566).1.1 =
    BathyDict (Some 50.0) (Some (50.0 * 3.28084)) (Some true) (Some true)
      (Some "Fallback estimate"%string).
Proof.
  apply (get_bathymetry_fallback net_down [] new_service 11.6808 92.5566).
  - reflexivity.
  - constructor.
Defined.

(** What a call leaves in the cache under its key is what it returns. *)
Lemma get_bathymetry_cached (N : network) (history : list event)
    (svc : service) (lat lon : Q) :
  let '(d, _, svc') := get_bathymetry N history svc lat lon in
  exists r, svc' !! cache_key lat lon = Some r /\ d = to_dict r.
Proof.
  unfold get_bathymetry. destruct (svc !! cache_key lat lon) as [r|] eqn:E.
  - by exists r.
  - eexists. split; [apply lookup_insert_eq | reflexivity].
Qed.

(** A call never replaces an entry of the cache. *)
Lemma get_bathymetry_keeps (N : network) (history : list event)
    (svc : service) (lat lon : Q) (k : string) (r : BathymetryResult) :
  svc !! k = Some r ->
  (get_bathymetry N history svc lat lon).2 !! k = Some r.
Proof.
  intros Hk. unfold get_bathymetry.
  destruct (svc !! cache_key lat lon) as [r'|] eqn:E; cbn [snd]; [done|].
  rewrite lookup_insert_ne; [done | congruence].
Qed.

Lemma lookups_keeps (N : network) (coords : list (Q * Q)) (history : list event)
    (svc : service) (k : string) (r : BathymetryResult) :
  svc !! k = Some r -> (lookups N history svc coords).2 !! k = Some r.
Proof.
  revert history svc. induction coords as [|[lat lon] rest IH]; intros history svc Hk;
    cbn; [done|].
  pose proof (get_bathymetry_keeps N history svc lat lon k r Hk) as Hk'.
  destruct (get_bathymetry N history svc lat lon) as [[d evs] svc']. by apply IH.
Qed.

(** A call whose key is in the cache returns the entry, asks nothing
    and leaves the service as it was. *)
Lemma get_bathymetry_hit (N : network) (history : list event)
    (svc : service) (lat lon : Q) (r : BathymetryResult) :
  svc !! cache_key lat lon = Some r ->
  get_bathymetry N history svc lat lon = (to_dict r, [], svc).
Proof. intros H. unfold get_bathymetry. by rewrite H. Qed.

(** C9.  On one service, a call whose coordinate has the cache key of an
    earlier call returns what that call returned, performs no fetch and
    leaves the cache unchanged, whatever calls were made in between. *)
Theorem get_bathymetry_cache_hit (N : network) (history : list event)
    (svc : service) (lat1 lon1 lat2 lon2 : Q) (between : list (Q * Q)) :
  cache_key lat1 lon1 = cache_key lat2 lon2 ->
  let '(d1, evs1, svc1) := get_bathymetry N history svc lat1 lon1 in
  let '(history2, svc2) := lookups N (history ++ evs1) svc1 between in
  get_bathymetry N history2 svc2 lat2 lon2 = (d1, [], svc2).
Proof.
  intros Hkey.
  pose proof (get_bathymetry_cached N history svc lat1 lon1) as Hc.
  destruct (get_bathymetry N history svc lat1 lon1) as [[d1 evs1] svc1].
  destruct Hc as (r & Hr & ->).
  pose proof (lookups_keeps N between (history ++ evs1) svc1 _ r Hr) as Hk.
  destruct (lookups N (history ++ evs1) svc1 between) as [history2 svc2].
  cbn in Hk. rewrite Hkey in Hk. by apply get_bathymetry_hit.
Qed.

Lemma get_bathymetry_cache_hit_witness :
  get_bathymetry net_ocean
    [EvElevation 11.680801 92.5566; EvElevation 12 93]
    (lookups net_ocean [] new_service [(11.680801, 92.5566); (12, 93)]).2
    11.680804 92.5566
  = (to_dict (MkBathymetryResult (Some (Qabs (-40))) (Some (Qabs (-40) * M_TO_FT))
                true false "OpenTopoData GEBCO2020"),
     [],
     (lookups net_ocean [] new_service [(11.680801, 92.5566); (12, 93)]).2).
Proof.
  exact (get_bathymetry_cache_hit net_ocean [] new_service
           11.680801 92.5566 11.680804 92.5566 [(12, 93)] eq_refl).
Defined.

End BathymetryService.

(** ** Grid generation (C2) *)

Section Grid.
Import Collector.
Context (L : pylib).

Lemma nm_to_deg (x : Q) : x * 1.0 / 60.0 == x / 60.
Proof. field. Qed.

Lemma _is_in_sector_spec (plat plon clat clon smin smax : Q) :
  _is_in_sector L plat plon clat clon smin smax = true <->
  in_sector (calculate_bearing L clat clon plat plon) smin smax.
Proof.
  unfold _is_in_sector, in_sector, Py.ge.
  set (b := calculate_bearing L clat clon plat plon).
  cmp_cases; cbn; split; try done; intros; try lra.
  all: try (split; intros; lra).
  all: try (exfalso; intuition lra).
Qed.

Section Loops.
Context (inp : inputs) (clat clon radius_nm spacing_nm : Q).

Lemma lon_loop_sound (fuel : nat) (lat0 lon0 : Q) (points points' : list latlon) :
  lon_loop L inp clat clon radius_nm spacing_nm fuel lat0 lon0 points = Ok points' ->
  Forall (grid_point_ok L inp clat clon radius_nm) points ->
  Forall (grid_point_ok L inp clat clon radius_nm) points'.
Proof.
  revert lon0 points. induction fuel as [|fuel IH]; intros lon0 points H Hok;
    cbn in H; [discriminate|].
  destruct (Py.le lon0 _); [|by injection H as <-].
  destruct (m_sqrt L _) as [distance| |] eqn:Ed; cbn in H; try discriminate.
  apply IH in H; [exact H|].
  destruct (Py.le distance _) eqn:Er; cbn [andb]; [|exact Hok].
  destruct (_is_in_sector _ _ _ _ _ _ _) eqn:Es; [|exact Hok].
  apply Forall_app. split; [exact Hok|]. constructor; [|constructor].
  split.
  - exists distance. cbn [lat lon]. split; [exact Ed|].
    apply le_true in Er. by rewrite nm_to_deg in Er.
  - by apply _is_in_sector_spec.
Qed.

Lemma lat_loop_sound (fuel fuel_lon : nat) (lat0 : Q) (points points' : list latlon) :
  lat_loop L inp clat clon radius_nm spacing_nm fuel fuel_lon lat0 points = Ok points' ->
  Forall (grid_point_ok L inp clat clon radius_nm) points ->
  Forall (grid_point_ok L inp clat clon radius_nm) points'.
Proof.
  revert lat0 points. induction fuel as [|fuel IH]; intros lat0 points H Hok;
    cbn in H; [discriminate|].
  destruct (Py.le lat0 _); [|by injection H as <-].
  destruct (lon_loop _ _ _ _ _ _ _ _ _ _) as [row| |] eqn:Erow; cbn in H;
    try discriminate.
  apply IH in H; [exact H|]. by eapply lon_loop_sound.
Qed.
End Loops.

(** C2.  Every point grid generation returns is within [radius_nm / 60]
    degrees of the center, in the Euclidean distance the code computes,
    and its bearing from the center lies in the sector: between the two
    bounds, or, when the lower bound is the larger one, at or above the
    lower bound or at or below the upper one.  With the sector from 300
    to 60, a point at bearing 350 is in and a point at bearing 150 is
    out. *)
Theorem generate_grid_points_sound (inp : inputs)
    (center_lat center_lon radius_nm grid_spacing_nm : Q) :
  (forall fuel points,
     generate_grid_points L inp center_lat center_lon radius_nm grid_spacing_nm fuel
       = Ok points ->
     Forall (grid_point_ok L inp center_lat center_lon radius_nm) points) /\
  (forall plat plon,
     calculate_bearing L center_lat center_lon plat plon == 350 ->
     _is_in_sector L plat plon center_lat center_lon 300 60 = true) /\
  (forall plat plon,
     calculate_bearing L center_lat center_lon plat plon == 150 ->
     _is_in_sector L plat plon center_lat center_lon 300 60 = false).
Proof.
  split; [|split].
  - intros fuel points H. eapply lat_loop_sound; [exact H | constructor].
  - intros plat plon Hb. apply _is_in_sector_spec. split; intros; lra.
  - intros plat plon Hb. apply not_true_is_false. intros Hs.
    apply _is_in_sector_spec in Hs. destruct Hs as [_ Hs]. lra.
Qed.



Section Termination.
Context (inp : inputs) (clat clon radius_nm spacing_nm : Q).
Hypothesis sqrt_total : forall x, 0 <= x -> exists y, m_sqrt L x = Ok y.
Hypothesis spacing_pos : 0 < spacing_nm.



End Termination.

End Grid.

Lemma generate_grid_points_sound_witness :
  exists points,
    Collector.generate_grid_points ExampleLib.lib (inputs_radius 1)
      11.6808 92.5566 1 1 5 = Ok points /\
    length points = 5%nat /\
    Forall (grid_point_ok ExampleLib.lib (inputs_radius 1) 11.6808 92.5566 1) points /\
    Collector._is_in_sector (lib_bearing 350) 12 92 11.6808 92.5566 300 60 = true /\
    Collector._is_in_sector (lib_bearing 150) 11 93 11.6808 92.5566 300 60 = false.
Proof.
  set (points := match Collector.generate_grid_points ExampleLib.lib (inputs_radius 1)
                         11.6808 92.5566 1 1 5 with
                 | Ok l => l
                 | _ => []
                 end).
  assert (H : Collector.generate_grid_points ExampleLib.lib (inputs_radius 1)
                11.6808 92.5566 1 1 5 = Ok points) by (vm_compute; reflexivity).
  exists points. split; [exact H|]. split; [vm_compute; reflexivity|].
  split.
  { exact (proj1 (generate_grid_points_sound ExampleLib.lib (inputs_radius 1)
                    11.6808 92.5566 1 1) 5%nat points H). }
  split.
  - apply (proj1 (proj2 (generate_grid_points_sound (lib_bearing 350)
                           (inputs_radius 1) 11.6808 92.5566 1 1))).
    vm_compute. reflexivity.
  - apply (proj2 (proj2 (generate_grid_points_sound (lib_bearing 150)
                           (inputs_radius 1) 11.6808 92.5566 1 1))).
    vm_compute. reflexivity.
Defined.


(** ** Collection loop (C1, C5) *)

Section Collection.
Import Collector.
Context (L : pylib) (N : network).

Lemma bind_io {A B} (m : io A) (k : A -> io B) (w : world) :
  (m ≫= k) w =
  match m w with
  | (Ok a, w') => k a w'
  | (Raise e, w') => (Raise e, w')
  | (OutOfFuel, w') => (OutOfFuel, w')
  end.
Proof. reflexivity. Qed.

Lemma get_marine_data_spec (w : world) (p : latlon) :
  exists marine, get_marine_data N (lat p) (lon p) w = (Ok marine, after_marine w p).
Proof.
  unfold get_marine_data. rewrite bind_io. unfold request.
  fold (after_marine w p). destruct (net_marine N _ _ _); by eexists.
Qed.

Lemma bathymetry_is_ocean_some (history : list event) (svc : Bathymetry.service)
    (lat0 lon0 : Q) :
  exists b, bd_is_ocean (Bathymetry.get_bathymetry N history svc lat0 lon0).1.1 = Some b.
Proof.
  unfold Bathymetry.get_bathymetry.
  destruct (svc !! _); cbn; by eexists.
Qed.

Lemma bathymetry_events (history : list event) (svc : Bathymetry.service)
    (lat0 lon0 : Q) :
  (Bathymetry.get_bathymetry N history svc lat0 lon0).1.2 = [] \/
  (Bathymetry.get_bathymetry N history svc lat0 lon0).1.2 = [EvElevation lat0 lon0].
Proof.
  unfold Bathymetry.get_bathymetry. destruct (svc !! _); cbn; auto.
Qed.

Section Loop.
Context (center : place) (target : option place) (region_weather : gmap string Q)
        (progress : bool) (rate_limit_s : Q) (total : nat).

Lemma report_spec (i : nat) (stats : CollectorStats) (w : world) :
  exists evs, report progress total i stats w
              = (Ok tt, World (trace w ++ evs) (bathy_service w)) /\
              Forall is_local evs.
Proof.
  unfold report. destruct progress; cbn.
  - exists [EvProgress (i + 1) total stats]. split; [done|]. by repeat constructor.
  - exists []. rewrite app_nil_r. split; [by destruct w | constructor].
Qed.

(** One iteration, in full: its events, and what it does to the
    statistics and to the list of analyzed points. *)
Lemma collect_point_spec (i : nat) (p : latlon) (stats : CollectorStats)
    (analyzed : list point_data) (w : world) :
  exists r w' evs,
    collect_point L N center target region_weather progress rate_limit_s total
      i p (stats, analyzed) w = (r, w') /\
    trace w' = trace w ++ evs /\ point_events p evs /\
    forall stats' analyzed', r = Ok (stats', analyzed') ->
      total_points stats' = total_points stats /\
      ((bd_is_ocean (bathymetry_at N w p) = Some false /\
        analyzed' = analyzed /\
        land_points stats' = (land_points stats + 1)%nat /\
        ocean_points stats' = ocean_points stats) \/
       (bd_is_ocean (bathymetry_at N w p) = Some true /\
        (exists pd, analyzed' = analyzed ++ [pd] /\
                    pt_bathymetry pd = Some (bathymetry_at N w p)) /\
        land_points stats' = land_points stats /\
        ocean_points stats' = (ocean_points stats + 1)%nat)).
Proof.
  pose proof (bathymetry_is_ocean_some (trace (after_marine w p))
                (bathy_service w) (lat p) (lon p)) as [oc Hoc].
  pose proof (bathymetry_events (trace (after_marine w p))
                (bathy_service w) (lat p) (lon p)) as Hevs.
  unfold collect_point. rewrite bind_io.
  destruct (get_marine_data_spec w p) as [marine ->].
  rewrite bind_io. unfold get_bathymetry at 1.
  unfold bathymetry_at in *. cbn [bathy_service after_marine] in *.
  fold (after_marine w p) in *.
  destruct (Bathymetry.get_bathymetry N (trace (after_marine w p))
              (bathy_service w) (lat p) (lon p)) as [[bathy fetch] svc'].
  cbn [fst snd] in *. rewrite Hoc.
  change (negb (default true (Some oc))) with (negb oc).
  set (w2 := World (trace (after_marine w p) ++ fetch) svc').
  destruct oc; cbn [negb].
  - (* ocean *)
    rewrite bind_io. unfold lift at 1.
    destruct (calculate_distance_nm L _ _ _ _) as [dc|e|].
    2,3: eexists _, _, _; split; [reflexivity|]; split;
         [cbn; rewrite <- app_assoc; reflexivity|]; split;
         [exists fetch, []; rewrite app_nil_r; by repeat split | done].
    rewrite bind_io.
    assert (Edt : exists rt,
              (match target with
               | Some t =>
                   lift (calculate_distance_nm L (loc_lat t) (loc_lon t)
                           (lat p) (lon p)) ≫= λ d : Q, mret (Some d)
               | None => mret None
               end) w2 = (rt, w2)).
    { destruct target as [t|]; [|by eexists].
      rewrite bind_io. unfold lift.
      destruct (calculate_distance_nm L _ _ _ _); by eexists. }
    destruct Edt as [rt ->].
    destruct rt as [dt|e|].
    2,3: eexists _, _, _; split; [reflexivity|]; split;
         [cbn; rewrite <- app_assoc; reflexivity|]; split;
         [exists fetch, []; rewrite app_nil_r; by repeat split | done].
    rewrite bind_io.
    destruct (report_spec i (add_ocean (count_source stats
                (default "Unknown"%string (bd_source bathy)))) w2)
      as (evr & -> & Hloc).
    rewrite bind_io. unfold emit at 1. cbn [trace bathy_service].
    eexists _, _, _. split; [reflexivity|]. split.
    { cbn [trace w2 after_marine]. rewrite <- !app_assoc. reflexivity. }
    split.
    { exists fetch, (evr ++ [EvSleep rate_limit_s]). split; [done|].
      split; [done|]. apply Forall_app. split; [done|]. by repeat constructor. }
    intros stats' analyzed' [= <- <-]. split; [done|]. right.
    split; [done|]. split; [by eexists|]. done.
  - (* land *)
    rewrite bind_io.
    destruct (report_spec i (add_land (count_source stats
                (default "Unknown"%string (bd_source bathy)))) w2)
      as (evr & -> & Hloc).
    rewrite bind_io. unfold emit at 1. cbn [trace bathy_service].
    eexists _, _, _. split; [reflexivity|]. split.
    { cbn [trace w2 after_marine]. rewrite <- !app_assoc. reflexivity. }
    split.
    { exists fetch, (evr ++ [EvSleep rate_limit_s]). split; [done|].
      split; [done|]. apply Forall_app. split; [done|]. by repeat constructor. }
    intros stats' analyzed' [= <- <-]. split; [done|]. left. done.
Qed.
Lemma collect_loop_spec (points : list latlon) (i : nat) (stats : CollectorStats)
    (analyzed : list point_data) (w : world)
    (stats' : CollectorStats) (analyzed' : list point_data) (w' : world) :
  collect_loop L N center target region_weather progress rate_limit_s total
    i points (stats, analyzed) w = (Ok (stats', analyzed'), w') ->
  (exists chunks, trace w' = trace w ++ concat chunks /\
                  Forall2 point_events points chunks) /\
  (Forall is_ocean_point analyzed -> Forall is_ocean_point analyzed') /\
  (ocean_points stats' + length analyzed = ocean_points stats + length analyzed')%nat /\
  (land_points stats' + ocean_points stats'
   = land_points stats + ocean_points stats + length points)%nat /\
  total_points stats' = total_points stats.
Proof.
  revert i stats analyzed w. induction points as [|p ps IH];
    intros i stats analyzed w H.
  - cbn in H. injection H as <- <- <-. split.
    { exists []. cbn. by rewrite app_nil_r. }
    cbn [length]. repeat split; [done | lia..].
  - cbn [collect_loop] in H. rewrite bind_io in H.
    destruct (collect_point_spec i p stats analyzed w)
      as (r & w1 & evs & Hr & Htr & Hev & Hacc).
    rewrite Hr in H. destruct r as [[stats1 analyzed1]|e|]; try discriminate.
    apply IH in H as ((chunks & Htr' & Hch) & Hoc & Ho & Hl & Ht).
    destruct (Hacc _ _ eq_refl) as [Ht1 Hcase]. split.
    { exists (evs :: chunks). split; [|by constructor].
      rewrite Htr', Htr. cbn. by rewrite app_assoc. }
    cbn [length].
    destruct Hcase as [(Hb & -> & Hl1 & Ho1) | (Hb & (pd & -> & Hpd) & Hl1 & Ho1)].
    + repeat split; [done | lia | lia | congruence].
    + rewrite length_app in Ho. cbn in Ho, Hl.
      repeat split; [| lia | lia | congruence].
      intros Han. apply Hoc. apply Forall_app. split; [done|].
      constructor; [|constructor]. by exists (bathymetry_at N w p).
Qed.
End Loop.
(** A run of [collect] that returns ran the loop over the grid it
    reports, from empty statistics, and its metadata are the statistics
    of the loop. *)
Lemma collect_runs_loop (inp : inputs) (fuel : nat) (progress : bool)
    (rate_limit_s : Q) (w w' : world) (dat : data) :
  collect L N inp fuel progress rate_limit_s w = (Ok dat, w') ->
  exists center target region_weather w1 stats w2,
    collect_loop L N center target region_weather progress rate_limit_s
      (length (d_grid_points dat)) 0 (d_grid_points dat)
      (MkStats 0 0 (length (d_grid_points dat)) ∅, []) w1
      = (Ok (stats, d_analyzed_points dat), w2) /\
    generate_grid_points L inp (loc_lat center) (loc_lon center)
      (default 13 (in_radius_nm inp)) (default 1.0 (in_grid_spacing_nm inp)) fuel
      = Ok (d_grid_points dat) /\
    md_points_total (d_metadata dat) = total_points stats /\
    md_points_ocean (d_metadata dat) = ocean_points stats /\
    md_points_land (d_metadata dat) = land_points stats.
Proof.
  unfold collect. intros H. rewrite bind_io in H.
  destruct (geocode_location L N (in_center_location inp) w) as [[[center|]|e|] wa];
    try discriminate.
  rewrite bind_io in H.
  destruct ((if String.eqb (in_target_location inp) "" then mret None
             else geocode_location L N (in_target_location inp)) wa)
    as [[target|e|] wb]; try discriminate.
  rewrite bind_io in H.
  destruct (get_regional_weather N (loc_lat center) (loc_lon center) wb)
    as [[region_weather|e|] wc]; try discriminate.
  rewrite bind_io in H. unfold lift at 1 in H.
  destruct (generate_grid_points L inp _ _ _ _ fuel) as [grid_points|e|] eqn:Eg;
    try discriminate.
  rewrite bind_io in H.
  destruct (collect_loop L N center target region_weather progress rate_limit_s
              (length grid_points) 0 grid_points _ wc)
    as [[[stats analyzed]|e|] wd] eqn:El; try discriminate.
  rewrite bind_io in H.
  destruct (get_astronomical_data N (loc_lat center) (loc_lon center) wd)
    as [[astro|e|] we]; try discriminate.
  rewrite bind_io in H. unfold isoformat_now at 1 in H.
  injection H as <- <-. cbn [d_grid_points d_analyzed_points d_metadata
    md_points_total md_points_ocean md_points_land].
  by exists center, target, region_weather, wc, stats, wd.
Qed.

(** C1.  Every point of [analyzed_points] has a bathymetry that says
    ocean; a grid point whose bathymetry says otherwise adds one to the
    land count and nothing to the list; the counts of the metadata add up
    to the grid. *)
Theorem collect_keeps_ocean_only (inp : inputs) (fuel : nat) (progress : bool)
    (rate_limit_s : Q) :
  (forall w dat w',
     collect L N inp fuel progress rate_limit_s w = (Ok dat, w') ->
     Forall is_ocean_point (d_analyzed_points dat) /\
     md_points_ocean (d_metadata dat) = length (d_analyzed_points dat) /\
     (md_points_land (d_metadata dat) + md_points_ocean (d_metadata dat))%nat
       = length (d_grid_points dat)) /\
  (forall center target region_weather total i p stats analyzed w
          stats' analyzed' w',
     collect_point L N center target region_weather progress rate_limit_s total
       i p (stats, analyzed) w = (Ok (stats', analyzed'), w') ->
     bd_is_ocean (bathymetry_at N w p) = Some false ->
     analyzed' = analyzed /\
     land_points stats' = (land_points stats + 1)%nat /\
     ocean_points stats' = ocean_points stats).
Proof.
  split.
  - intros w dat w' H.
    destruct (collect_runs_loop _ _ _ _ _ _ _ H)
      as (center & target & rw & w1 & stats & w2 & Hloop & _ & Ht & Ho & Hl).
    apply collect_loop_spec in Hloop as (_ & Hoc & Hcount & Hsum & _).
    cbn in Hcount, Hsum. rewrite Ho, Hl.
    split; [apply Hoc; constructor|]. split; lia.
  - intros center target rw total i p stats analyzed w stats' analyzed' w' H Hland.
    destruct (collect_point_spec center target rw progress rate_limit_s total
                i p stats analyzed w) as (r & w1 & evs & Hr & _ & _ & Hacc).
    rewrite H in Hr. injection Hr as <- <-.
    destruct (Hacc _ _ eq_refl) as [_ [(_ & ? & ? & ?) | (Hoc & _)]]; [done|].
    congruence.
Qed.


End Collection.

Lemma collect_keeps_ocean_only_witness :
  exists dat w',
    Collector.collect ExampleLib.lib net_ocean (inputs_radius 1) 5 true 0.25 world0
      = (Ok dat, w') /\
    length (d_analyzed_points dat) = 5%nat /\
    Forall is_ocean_point (d_analyzed_points dat).
Proof.
  pose (run := Collector.collect ExampleLib.lib net_ocean (inputs_radius 1) 5 true
                 0.25 world0).
  pose (dat := match run.1 with
               | Ok d => d
               | _ => Data location_center None [] [] None (metadata_of 0)
               end).
  assert (H : Collector.collect ExampleLib.lib net_ocean (inputs_radius 1) 5 true
                0.25 world0 = (Ok dat, run.2)) by (vm_compute; reflexivity).
  exists dat, run.2. split; [exact H|]. split; [vm_compute; reflexivity|].
  exact (proj1 (proj1 (collect_keeps_ocean_only ExampleLib.lib net_ocean
                         (inputs_radius 1) 5 true 0.25) world0 dat run.2 H)).
Defined.



(** * Further properties *)

(** ** Rounding and the scale of the scores *)

Section Scale.
Import Analyzer.

Lemma round_half_even_near (x : Q) :
  inject_Z (round_half_even x) - (1 # 2) <= x /\
  x <= inject_Z (round_half_even x) + (1 # 2).
Proof.
  unfold round_half_even.
  pose proof (Qfloor_le x) as Hlo. pose proof (Qlt_floor x) as Hhi.
  rewrite inject_Z_plus in Hhi. change (inject_Z 1) with 1 in Hhi.
  set (f := Qfloor x) in *.
  cmp_cases; [lra | rewrite inject_Z_plus; change (inject_Z 1) with 1; lra |].
  destruct (Z.even f); [lra|].
  rewrite inject_Z_plus. change (inject_Z 1) with 1. lra.
Qed.

Lemma round_half_even_between (x : Q) (a b : Z) :
  inject_Z a <= x -> x <= inject_Z b ->
  (a <= round_half_even x <= b)%Z.
Proof.
  intros Ha Hb. unfold round_half_even.
  pose proof (Qfloor_le x) as Hlo. pose proof (Qlt_floor x) as Hhi.
  assert (Hfa : (a <= Qfloor x)%Z).
  { rewrite <- (Qfloor_Z a). by apply Qfloor_resp_le. }
  assert (Hfb : (Qfloor x <= b)%Z).
  { rewrite <- (Qfloor_Z b). by apply Qfloor_resp_le. }
  set (f := Qfloor x) in *.
  assert (Hstep : inject_Z f < x -> (f + 1 <= b)%Z).
  { intros Hlt. assert (Hq : inject_Z f < inject_Z b) by lra.
    rewrite <- Zlt_Qlt in Hq. lia. }
  cmp_cases; [lia | assert (f + 1 <= b)%Z by (apply Hstep; lra); lia |].
  destruct (Z.even f); [lia|]. assert (f + 1 <= b)%Z by (apply Hstep; lra). lia.
Qed.

(** [round(x, 1)] moves a number by at most 0.05 and keeps it on the
    scale from 0 to 100. *)
Lemma round1_near (x : Q) : Qabs (round1 x - x) <= 0.05.
Proof.
  unfold round1. destruct (round_half_even_near (x * 10)) as [H1 H2].
  set (r := inject_Z (round_half_even (x * 10))) in *.
  apply Qabs_Qle_condition.
  assert (E : r / 10 == r * (1 # 10)) by (field).
  rewrite E. split; lra.
Qed.

Lemma round1_in_scale (x : Q) : in_scale x -> in_scale (round1 x).
Proof.
  intros [H0 H100]. unfold round1.
  destruct (round_half_even_between (x * 10) 0 1000) as [Ha Hb];
    [change (inject_Z 0) with 0; lra | change (inject_Z 1000) with 1000; lra |].
  rewrite Zle_Qle in Ha, Hb.
  change (inject_Z 0) with 0 in Ha. change (inject_Z 1000) with 1000 in Hb.
  set (r := inject_Z (round_half_even (x * 10))) in *.
  assert (E : r / 10 == r * (1 # 10)) by (field).
  unfold in_scale. rewrite E. split; lra.
Qed.

Lemma clamp_in_scale (s : Q) : in_scale (Py.max 0.0 (Py.min 100.0 s)).
Proof.
  unfold in_scale.
  destruct (min_spec 100.0 s) as [[? ->] | [? ->]];
    [destruct (max_spec 0.0 s) as [[? ->] | [? ->]]
    |destruct (max_spec 0.0 100.0) as [[? ->] | [? ->]]]; lra.
Qed.

Lemma score_weather_in_scale (inp : inputs) (w : option (gmap string Q)) (s : Q) :
  score_weather inp w = Ok s -> in_scale s.
Proof.
  unfold score_weather. destruct w as [w|]; [|intros [= <-]; split; lra].
  case_bool_decide; [intros [= <-]; split; lra|].
  destruct (Py.gt _ _); [intros [= <-]; split; lra|].
  destruct (Py.lt _ _); [intros [= <-]; split; lra|].
  rewrite !div_max1.
  destruct (Py.div (get_float w "wind_speed_10m" 0) _) as [q| |] eqn:Eq;
    destruct (Py.gt (get_float w "cloud_cover" 0) _); cbn; rewrite ?Eq; cbn;
    try discriminate; intros [= <-]; apply clamp_in_scale.
Qed.

Lemma score_sea_state_in_scale (inp : inputs) (m : option (gmap string Q)) (s : Q) :
  score_sea_state inp m = Ok s -> in_scale s.
Proof.
  unfold score_sea_state. destruct m as [m|]; [|intros [= <-]; split; lra].
  case_bool_decide; [intros [= <-]; split; lra|].
  destruct (Py.gt _ _); [intros [= <-]; split; lra|].
  destruct (Py.div _ _) as [q| |]; cbn; try discriminate.
  intros [= <-]. apply clamp_in_scale.
Qed.

Lemma score_depth_in_scale (b : option bathy_dict) (vs : list vessel) :
  in_scale (score_depth b vs).
Proof.
  unfold score_depth. destruct b as [b|]; [|split; lra].
  repeat match goal with
         | |- context [if ?c then _ else _] => destruct c
         end; try (split; lra). apply clamp_in_scale.
Qed.

Lemma score_flight_ops_in_scale (w m : option (gmap string Q)) (vs : list vessel) :
  in_scale (score_flight_ops w m vs).
Proof.
  unfold score_flight_ops.
  destruct (negb _); [split; lra|]. destruct (_ || _); [split; lra|].
  destruct (Py.lt _ 10); [|destruct (Py.le _ 25); [|destruct (Py.le _ 35)]];
    try (split; lra);
    (destruct (Py.lt _ 3000); [split; lra | apply clamp_in_scale]).
Qed.

Lemma score_fire_support_in_scale (dat : data) (p : point_data) (vs : list vessel) :
  in_scale (score_fire_support dat p vs).
Proof.
  unfold score_fire_support.
  destruct (Py.le _ 0); [split; lra|]. destruct (d_target dat); [|split; lra].
  destruct (Py.le _ (_ * _)); [apply clamp_in_scale|].
  destruct (Py.le _ _); [apply clamp_in_scale | split; lra].
Qed.

Lemma score_distance_constraints_in_scale (inp : inputs) (p : point_data) :
  in_scale (score_distance_constraints inp p).
Proof.
  unfold score_distance_constraints. destruct (_ || _); split; lra.
Qed.

Lemma weighted_sum_in_scale (mission : string) (a b c d e f : Q) :
  in_scale a -> in_scale b -> in_scale c -> in_scale d -> in_scale e -> in_scale f ->
  in_scale (weighted_sum (_weights_for_mission mission) a b c d e f).
Proof.
  unfold in_scale, weighted_sum, _weights_for_mission. intros.
  repeat match goal with
         | |- context [String.eqb ?x ?y] => destruct (String.eqb x y)
         end; cbn [w_weather w_sea_state w_depth w_flight_ops w_fire_support w_distance];
    split; lra.
Qed.

(** X1.  Every score [calculate_scores] reports, the overall score included,
    lies between 0 and 100, and the overall score is within 0.05 of the
    weighted sum of the six sub-scores before rounding. *)
Theorem calculate_scores_in_scale (inp : inputs) (dat : data) (p : point_data)
    (sb : ScoreBreakdown) :
  calculate_scores inp dat p = Ok sb ->
  in_scale (overall sb) /\ in_scale (weather sb) /\ in_scale (sea_state sb) /\
  in_scale (depth sb) /\ in_scale (flight_ops sb) /\ in_scale (fire_support sb) /\
  in_scale (distance sb) /\
  exists w s,
    score_weather inp (pt_weather p) = Ok w /\
    score_sea_state inp (pt_marine p) = Ok s /\
    Qabs (overall sb
          - weighted_sum
              (_weights_for_mission (default "balanced"%string (in_primary_mission inp)))
              w s (score_depth (pt_bathymetry p) (in_vessels inp))
              (score_flight_ops (pt_weather p) (pt_marine p) (in_vessels inp))
              (score_fire_support dat p (in_vessels inp))
              (score_distance_constraints inp p)) <= 0.05.
Proof.
  unfold calculate_scores.
  destruct (score_weather inp (pt_weather p)) as [w| |] eqn:Ew; try discriminate.
  destruct (score_sea_state inp (pt_marine p)) as [s| |] eqn:Es; try discriminate.
  cbn. intros [= <-]. cbn [overall weather sea_state depth flight_ops fire_support distance].
  pose proof (score_weather_in_scale _ _ _ Ew) as Hw.
  pose proof (score_sea_state_in_scale _ _ _ Es) as Hs.
  pose proof (score_depth_in_scale (pt_bathymetry p) (in_vessels inp)) as Hd.
  pose proof (score_flight_ops_in_scale (pt_weather p) (pt_marine p) (in_vessels inp)) as Hf.
  pose proof (score_fire_support_in_scale dat p (in_vessels inp)) as Hg.
  pose proof (score_distance_constraints_in_scale inp p) as Hc.
  split. { apply round1_in_scale. by apply weighted_sum_in_scale. }
  repeat (split; [by apply round1_in_scale|]).
  exists w, s. split; [done|]. split; [done|]. apply round1_near.
Qed.

Lemma calculate_scores_in_scale_witness :
  exists sb, calculate_scores inputs_gunfire data_calm point_calm = Ok sb /\
             in_scale (overall sb).
Proof.
  pose (sb := match calculate_scores inputs_gunfire data_calm point_calm with
              | Ok x => x
              | _ => MkScoreBreakdown 0 0 0 0 0 0 0
              end).
  assert (H : calculate_scores inputs_gunfire data_calm point_calm = Ok sb)
    by (vm_compute; reflexivity).
  exists sb. split; [exact H|].
  exact (proj1 (calculate_scores_in_scale inputs_gunfire data_calm point_calm sb H)).
Defined.

End Scale.

(** ** When the scorer raises *)

Section ScorerErrors.
Import Analyzer.


Lemma score_sea_state_cases (inp : inputs) (m : option (gmap string Q)) :
  (sea_divides_by_zero inp m /\
   score_sea_state inp m = Raise ZeroDivisionError) \/
  (~ sea_divides_by_zero inp m /\ exists s, score_sea_state inp m = Ok s).
Proof.
  unfold sea_divides_by_zero, score_sea_state, _thresholds.
  destruct m as [d|]; [|right; split; [intros (? & ? & _); done | by eexists]].
  case_bool_decide as Hne;
    [right; split; [intros (? & [= <-] & ? & _); done | by eexists]|].
  destruct (Py.gt _ _) eqn:E1;
    [apply gt_true in E1; right; split;
     [intros (? & [= <-] & _ & ? & ?); lra | by eexists]|].
  apply gt_false in E1.
  destruct (Qeq_dec (get_float (in_weather_thresholds inp) "max_wave_height_ft" 6) 0)
    as [Hz | Hz].
  - left. split; [exists d; repeat split; try done; lra|].
    by rewrite (div_zero _ _ Hz).
  - right. split; [intros (? & [= <-] & _ & ? & _); done|].
    rewrite (div_ok _ _ Hz). cbn. by eexists.
Qed.



(** X3.  [score_sea_state] raises [ZeroDivisionError] exactly when a
    non-empty marine record reaches the division by a zero
    [max_wave_height_ft]. *)
Theorem score_sea_state_outcome (inp : inputs) (m : option (gmap string Q)) :
  (sea_divides_by_zero inp m ->
   score_sea_state inp m = Raise ZeroDivisionError) /\
  (~ sea_divides_by_zero inp m -> exists s, score_sea_state inp m = Ok s).
Proof.
  destruct (score_sea_state_cases inp m) as [[Hb Hr] | [Hn Hr]]; split; try done.
Qed.

Lemma score_sea_state_outcome_witness :
  score_sea_state
    (Inputs None (LatLon 0 0) (LatLon 0 0) None "" None None None ""
       [] {[ "max_wave_height_ft" := 0 ]} None None None None)
    (Some {[ "swell_wave_height" := 1 ]}) = Raise ZeroDivisionError /\
  exists s, score_sea_state inputs_default (Some marine_calm) = Ok s.
Proof.
  split.
  - apply (proj1 (score_sea_state_outcome _ _)).
    eexists. split; [reflexivity|]. split; [done|].
    split; [reflexivity|]. vm_compute. discriminate.
  - apply (proj2 (score_sea_state_outcome inputs_default (Some marine_calm))).
    intros (d & _ & _ & Hz & _). vm_compute in Hz. discriminate.
Defined.




End ScorerErrors.

(** ** Flight operations, fire support and the distance band *)

Section OtherScores.
Import Analyzer.

Lemma clamp_id (s : Q) : 0 <= s -> s <= 100 -> Py.max 0.0 (Py.min 100.0 s) == s.
Proof.
  intros H0 H1.
  destruct (min_spec 100.0 s) as [[? ->] | [? ->]];
    [destruct (max_spec 0.0 s) as [[? ->] | [? ->]]
    |destruct (max_spec 0.0 100.0) as [[? ->] | [? ->]]]; lra.
Qed.

Lemma clamp_100 (s : Q) :
  s <= 100 -> (Py.max 0.0 (Py.min 100.0 s) == 100 <-> s == 100).
Proof.
  intros H1.
  destruct (min_spec 100.0 s) as [[? ->] | [? ->]];
    [destruct (max_spec 0.0 s) as [[? ->] | [? ->]]
    |destruct (max_spec 0.0 100.0) as [[? ->] | [? ->]]]; split; intros; lra.
Qed.

(** X5.  The flight-operations score is 0 for a formation without a flight
    deck, whatever the weather, and 0 in a wind above 35 kts or a
    visibility below 3000 m; it is 100 exactly in the ideal band: wind
    from 10 to 25 kts, visibility of 5000 m or more, cloud cover up to
    50, waves up to 4 ft and no precipitation. *)
Theorem score_flight_ops_gates (w m : gmap string Q) (vs : list vessel) :
  (has_flight_deck vs = false ->
   forall w' m', score_flight_ops w' m' vs = 0.0) /\
  (35 < read_or_zero w "wind_speed_10m" \/ read_or_zero w "visibility" < 3000 ->
   score_flight_ops (Some w) (Some m) vs = 0.0) /\
  (has_flight_deck vs = true -> w <> ∅ -> m <> ∅ ->
   (score_flight_ops (Some w) (Some m) vs == 100 <->
    10 <= read_or_zero w "wind_speed_10m" <= 25 /\
    5000 <= read_or_zero w "visibility" /\
    read_or_zero w "cloud_cover" <= 50 /\
    read_or_zero m "wave_height" <= 4 /\
    read_or_zero w "precipitation" <= 0)).
Proof.
  unfold has_flight_deck, read_or_zero. split; [|split].
  - intros Hno w' m'. unfold score_flight_ops. by rewrite Hno.
  - intros Hbad. unfold score_flight_ops.
    destruct (negb _); [done|]. destruct (_ || _); [done|].
    cbn [default from_option id].
    destruct Hbad as [Hwind | Hvis].
    + assert (E1 : Py.lt (or_ (get_float w "wind_speed_10m" 0) 0) 10 = false)
        by (apply lt_false; lra).
      assert (E2 : Py.le (or_ (get_float w "wind_speed_10m" 0) 0) 25 = false)
        by (apply le_false; lra).
      assert (E3 : Py.le (or_ (get_float w "wind_speed_10m" 0) 0) 35 = false)
        by (by apply le_false).
      by rewrite E1, E2, E3.
    + apply lt_true in Hvis. rewrite Hvis.
      by repeat match goal with
                | |- context [if ?c then _ else _] => destruct c
                end.
  - intros Hyes Hw Hm. unfold score_flight_ops. rewrite Hyes.
    cbn [negb falsy_dict]. rewrite !bool_decide_eq_false_2 by done.
    cbn [orb default from_option id].
    set (wind := or_ (get_float w "wind_speed_10m" 0) 0).
    set (vis := or_ (get_float w "visibility" 0) 0).
    set (cloud := or_ (get_float w "cloud_cover" 0) 0).
    set (precip := or_ (get_float w "precipitation" 0) 0).
    set (wave := or_ (get_float m "wave_height" 0) 0).
    cmp_cases; cbv beta iota zeta;
      try (split; [intros; exfalso; lra | intros (? & ? & ? & ? & ?); exfalso; lra]);
      (etransitivity; [apply clamp_100; lra|]);
      (split; [intros; repeat split; lra | intros (? & ? & ? & ? & ?); lra]).
Qed.

Lemma score_flight_ops_gates_witness :
  score_flight_ops (Some weather_calm) (Some marine_calm) [vessel_ddg] = 0.0 /\
  score_flight_ops (Some weather_calm) (Some marine_calm) [vessel_lha] == 100.
Proof.
  destruct (score_flight_ops_gates weather_calm marine_calm [vessel_ddg]) as (H0 & _).
  destruct (score_flight_ops_gates weather_calm marine_calm [vessel_lha])
    as (_ & _ & H100).
  split; [by apply H0|]. apply H100; [done | done | done |].
  vm_compute. repeat split; discriminate.
Defined.

(** X6.  Fire support: 0 without a 5-inch gun; a flat 70 with a gun and no
    target, whatever the point; with a target, 0 beyond 13 nm, 100 up to
    9.1 nm and 80 up to 13 nm, less 40 in water shallower than 30 ft.
    A distance of exactly 0 is read as absent: a point at the target
    scores 0. *)
Theorem score_fire_support_cases (dat : data) (p : point_data) (vs : list vessel) :
  (has_gun vs = false -> score_fire_support dat p vs = 0.0) /\
  (has_gun vs = true -> d_target dat = None -> score_fire_support dat p vs = 70.0) /\
  (has_gun vs = true -> d_target dat <> None ->
   (13 < target_distance_read p -> score_fire_support dat p vs = 0.0) /\
   (target_distance_read p <= 9.1 ->
    score_fire_support dat p vs == (if Py.lt (point_depth_read p) 30 then 60 else 100)) /\
   (9.1 < target_distance_read p <= 13 ->
    score_fire_support dat p vs == (if Py.lt (point_depth_read p) 30 then 40 else 80)) /\
   (forall d, pt_distance_from_target_nm p = Some d -> d == 0 ->
    score_fire_support dat p vs = 0.0)).
Proof.
  unfold has_gun, target_distance_read, point_depth_read.
  split; [|split].
  - intros Hno. unfold score_fire_support, _max_gun_range_nm. by rewrite Hno.
  - intros Hgun Ht. unfold score_fire_support, _max_gun_range_nm.
    by rewrite Hgun, Ht.
  - intros Hgun Ht. unfold score_fire_support, _max_gun_range_nm.
    rewrite Hgun. destruct (d_target dat) as [t|]; [|done].
    change (Py.le DEFAULT_GUN_RANGE_NM 0) with false. cbv beta iota.
    assert (E7 : DEFAULT_GUN_RANGE_NM * 0.7 == 9.1) by reflexivity.
    assert (E13 : DEFAULT_GUN_RANGE_NM == 13) by reflexivity.
    set (dist := or_ (default 1e9 (pt_distance_from_target_nm p)) 1e9).
    set (gun := DEFAULT_GUN_RANGE_NM) in *.
    assert (Hfar : 13 < dist -> (if Py.le dist (gun * 0.7) then Some 100.0
                                 else if Py.le dist gun then Some 80.0 else None)
                                = None).
    { intros Hd. assert (E1 : Py.le dist (gun * 0.7) = false) by (apply le_false; lra).
      assert (E2 : Py.le dist gun = false) by (apply le_false; lra).
      by rewrite E1, E2. }
    split; [|split; [|split]].
    + intros Hd. by rewrite (Hfar Hd).
    + intros Hd. assert (E1 : Py.le dist (gun * 0.7) = true) by (apply le_true; lra).
      rewrite E1. cmp_cases; (etransitivity; [apply clamp_id; lra | lra]).
    + intros [Hd1 Hd2].
      assert (E1 : Py.le dist (gun * 0.7) = false) by (apply le_false; lra).
      assert (E2 : Py.le dist gun = true) by (apply le_true; lra).
      rewrite E1, E2. cmp_cases; (etransitivity; [apply clamp_id; lra | lra]).
    + intros d Hd Hz. rewrite Hfar; [done|]. subst dist. rewrite Hd.
      unfold or_, truthy. cbn [default from_option id].
      rewrite (Qeq_eq_bool _ _ Hz). cbn [negb]. reflexivity.
Qed.

Lemma score_fire_support_cases_witness :
  score_fire_support data_calm point_calm [vessel_lha] = 0.0 /\
  score_fire_support data_calm point_calm [vessel_ddg] == 100 /\
  score_fire_support data_calm point_at_target [vessel_ddg] = 0.0.
Proof.
  destruct (score_fire_support_cases data_calm point_calm [vessel_lha]) as (H0 & _).
  destruct (score_fire_support_cases data_calm point_calm [vessel_ddg])
    as (_ & _ & Hc).
  destruct (score_fire_support_cases data_calm point_at_target [vessel_ddg])
    as (_ & _ & Ht).
  split; [by apply H0|]. split.
  - destruct (Hc eq_refl ltac:(done)) as (_ & Hnear & _).
    apply Hnear. vm_compute. discriminate.
  - destruct (Ht eq_refl ltac:(done)) as (_ & _ & _ & Hzero).
    by apply (Hzero 0).
Defined.

(** X7.  The distance score is 100 inside the band from the minimum to the
    maximum shore distance and 20 outside it; a bound that is absent or
    zero is replaced by its default, 5 or 50 nm. *)
Theorem score_distance_constraints_band (inp : inputs) (p : point_data) :
  (min_shore inp <= center_distance_read p <= max_shore inp ->
   score_distance_constraints inp p = 100.0) /\
  (center_distance_read p < min_shore inp \/ max_shore inp < center_distance_read p ->
   score_distance_constraints inp p = 20.0) /\
  (default 5 (in_min_distance_shore_nm inp) == 0 -> min_shore inp = 5) /\
  (default 50 (in_max_distance_shore_nm inp) == 0 -> max_shore inp = 50).
Proof.
  unfold score_distance_constraints, min_shore, max_shore, center_distance_read.
  split; [|split; [|split]].
  - intros [H1 H2]. apply lt_false in H1. apply gt_false in H2. by rewrite H1, H2.
  - intros [H | H]; [apply lt_true in H; by rewrite H|].
    apply gt_true in H. rewrite H. by rewrite orb_true_r.
  - intros Hz. unfold or_, truthy. by rewrite (Qeq_eq_bool _ _ Hz).
  - intros Hz. unfold or_, truthy. by rewrite (Qeq_eq_bool _ _ Hz).
Qed.

Lemma score_distance_constraints_band_witness :
  score_distance_constraints (inputs_band (Some 0) None) point_calm = 100.0 /\
  score_distance_constraints (inputs_band (Some 0) None) point_near = 20.0.
Proof.
  destruct (score_distance_constraints_band (inputs_band (Some 0) None) point_calm)
    as (Hin & _).
  destruct (score_distance_constraints_band (inputs_band (Some 0) None) point_near)
    as (_ & Hout & _).
  split; [apply Hin; split; vm_compute; discriminate|].
  apply Hout. left. vm_compute. reflexivity.
Defined.

(** X8.  The first element of the ranking is a collected point whose overall
    score no other point of the ranking exceeds. *)
Theorem analyze_best_first (inp : inputs) (dat : data)
    (best : scored_point) (rest : list scored_point) :
  analyze inp dat = Ok (best :: rest) ->
  (exists p, p ∈ d_analyzed_points dat /\ score_point inp dat p = Ok best) /\
  Forall (fun s => overall (sp_scores s) <= overall (sp_scores best)) (best :: rest).
Proof.
  unfold analyze. intros H.
  destruct (score_all inp dat (d_analyzed_points dat)) as [collected| |] eqn:E;
    try discriminate.
  cbn in H. injection H as H.
  pose proof (sort_reverse_perm (fun x => overall (sp_scores x)) collected) as Hp.
  pose proof (sort_reverse_sorted (fun x => overall (sp_scores x)) collected) as Hs.
  rewrite H in Hp, Hs. split.
  - assert (Hin : best ∈ collected) by (rewrite <- Hp; apply list_elem_of_here).
    apply score_all_Forall2 in E.
    apply list_elem_of_lookup in Hin as [i Hi].
    destruct (Forall2_lookup_r _ _ _ _ _ E Hi) as (p & Hpi & Hsp).
    exists p. split; [by eapply list_elem_of_lookup_2 | done].
  - constructor; [lra|]. by inversion Hs.
Qed.

Lemma analyze_best_first_witness :
  exists best rest,
    analyze inputs_gunfire data_three = Ok (best :: rest) /\
    sp_lat best = pt_lat point_calm /\
    Forall (fun s => overall (sp_scores s) <= overall (sp_scores best)) (best :: rest).
Proof.
  pose (scored := match analyze inputs_gunfire data_three with
                  | Ok l => l
                  | _ => []
                  end).
  pose (best := hd (ScoredPoint 0 0 (MkScoreBreakdown 0 0 0 0 0 0 0) None None None
                      None None) scored).
  assert (H : analyze inputs_gunfire data_three = Ok (best :: tl scored))
    by (vm_compute; reflexivity).
  exists best, (tl scored). split; [exact H|]. split; [vm_compute; reflexivity|].
  exact (proj2 (analyze_best_first inputs_gunfire data_three best (tl scored) H)).
Defined.

End OtherScores.

(** ** Bearings *)

Section Bearings.

Lemma mod_range (x m : Q) : 0 < m -> 0 <= mod_ x m /\ mod_ x m < m.
Proof.
  intros Hm. unfold mod_.
  pose proof (Qfloor_le (x / m)) as Hlo. pose proof (Qlt_floor (x / m)) as Hhi.
  rewrite inject_Z_plus in Hhi. change (inject_Z 1) with 1 in Hhi.
  set (f := inject_Z (Qfloor (x / m))) in *.
  assert (E : x == x / m * m) by (field; lra).
  set (q := x / m) in *.
  assert (H1 : 0 <= (q - f) * m) by (apply Qmult_le_0_compat; lra).
  assert (H2 : 0 < (f + 1 - q) * m) by (apply Qmult_lt_0_compat; lra).
  split; lra.
Qed.

Lemma mod_small (x m : Q) : 0 <= x -> x < m -> mod_ x m == x.
Proof.
  intros H0 Hm. unfold mod_.
  assert (F : Qfloor (x / m) = 0%Z).
  { apply Qfloor_unique.
    - change (inject_Z 0) with 0. apply Qle_shift_div_l; lra.
    - change (inject_Z (0 + 1)) with 1. apply Qlt_shift_div_r; lra. }
  rewrite F. change (inject_Z 0) with 0. lra.
Qed.

Lemma mod_360 (x : Q) : mod_ x 360 == mod_ x 360.0.
Proof.
  unfold mod_.
  assert (F : Qfloor (x / 360) = Qfloor (x / 360.0)).
  { apply Qfloor_comp. field. }
  rewrite F. lra.
Qed.

(** X9.  The bearing the planner computes lies in [0, 360), whatever the
    [math] library returns, and the copy of the function in the
    collector computes the same bearing. *)
Theorem calculate_bearing_range (L : pylib) (lat1 lon1 lat2 lon2 : Q) :
  0 <= Planner.calculate_bearing L lat1 lon1 lat2 lon2 /\
  Planner.calculate_bearing L lat1 lon1 lat2 lon2 < 360 /\
  Collector.calculate_bearing L lat1 lon1 lat2 lon2
    == Planner.calculate_bearing L lat1 lon1 lat2 lon2.
Proof.
  unfold Planner.calculate_bearing, Collector.calculate_bearing.
  set (b := m_degrees L _).
  destruct (mod_range (b + 360.0) 360.0) as [H0 H1]; [reflexivity|].
  split; [exact H0|]. split; [lra|].
  rewrite mod_360. apply mod_proper. lra.
Qed.




(** X11.  The direction of attack and both sector bounds the planner writes
    into the inputs lie in [0, 360). *)
Theorem build_derived_geometry_in_range (L : pylib) (inp : inputs) :
  let out := Planner.build_derived_geometry L inp in
  Forall (fun field => exists x, field = Some x /\ 0 <= x /\ x < 360)
    [in_direction_of_attack out; in_sector_min_bearing out; in_sector_max_bearing out].
Proof.
  intros out. unfold out, Planner.build_derived_geometry, Planner.calculate_midpoint.
  cbn [in_direction_of_attack in_sector_min_bearing in_sector_max_bearing].
  unfold Planner.calculate_perpendicular_bearing.
  repeat constructor; eexists; (split; [reflexivity|]);
    match goal with
    | |- 0 <= mod_ ?x _ /\ _ =>
        destruct (mod_range x 360.0) as [H0 H1]; [reflexivity|]; split; lra
    end.
Qed.

End Bearings.

(** ** The bathymetry service beyond the fallback *)

Section BathymetryMore.
Import Bathymetry.

(** X12.  On a cache miss answered with a number, the sign of the elevation
    decides: below sea level the point is ocean with the depth the
    absolute elevation, in metres and in feet; at or above it the point
    is land with depth 0.  The call makes one request and caches its
    result under the key of the coordinate. *)
Theorem get_bathymetry_measured (N : network) (history : list event)
    (svc : service) (lat lon elev_m : Q) (rest : list elevation) :
  svc !! cache_key lat lon = None ->
  net_elevation N history lat lon = Json (ElevNum elev_m :: rest) ->
  exists r,
    get_bathymetry N history svc lat lon
      = (to_dict r, [EvElevation lat lon], <[cache_key lat lon := r]> svc) /\
    estimated r = false /\ source r = "OpenTopoData GEBCO2020"%string /\
    (elev_m < 0 ->
     is_ocean r = true /\
     exists m ft, depth_m r = Some m /\ depth_ft r = Some ft /\
                  m == - elev_m /\ ft == - elev_m * 3.28084) /\
    (0 <= elev_m ->
     is_ocean r = false /\ depth_m r = Some 0.0 /\ depth_ft r = Some 0.0).
Proof.
  intros Hmiss Hnet. unfold get_bathymetry. rewrite Hmiss, Hnet.
  cbn [try_fetch].
  destruct (Py.lt elev_m 0) eqn:E; [apply lt_true in E | apply lt_false in E];
    eexists; (split; [reflexivity|]); cbn [estimated source is_ocean depth_m depth_ft];
    (split; [done|]); (split; [done|]); split; intros H; try (exfalso; lra).
  - split; [done|]. eexists _, _. split; [done|]. split; [done|].
    rewrite (Qabs_neg elev_m) by lra. split; [lra|]. unfold M_TO_FT. lra.
  - done.
Qed.

Lemma get_bathymetry_measured_witness :
  exists r,
    get_bathymetry net_ocean [] new_service 11.6808 92.5566
      = (to_dict r, [EvElevation 11.6808 92.5566],
         <[cache_key 11.6808 92.5566 := r]> new_service) /\
    is_ocean r = true.
Proof.
  destruct (get_bathymetry_measured net_ocean [] new_service 11.6808 92.5566
              (-40) [] eq_refl eq_refl) as (r & Hr & _ & _ & Hoc & _).
  exists r. split; [exact Hr|]. apply Hoc. reflexivity.
Defined.

Lemma try_fetch_consistent (resp : http (list elevation)) :
  consistent_result (match try_fetch resp with Ok out => out | _ => fallback end).
Proof.
  assert (Hfb : consistent_result fallback).
  { exists 50.0, (50.0 * M_TO_FT).
    cbn [fallback depth_m depth_ft is_ocean estimated source].
    split; [done|]. split; [done|]. split; [lra|].
    split; [reflexivity|]. split; [done|]. done. }
  destruct resp as [|[|[| | |e] rest]]; cbn [try_fetch]; try exact Hfb.
  destruct (Py.lt e 0) eqn:E; [apply lt_true in E | apply lt_false in E].
  - exists (Qabs e), (Qabs e * M_TO_FT).
    cbn [depth_m depth_ft is_ocean estimated source].
    split; [done|]. split; [done|]. split; [apply Qabs_nonneg|].
    split; [reflexivity|]. split; [done|]. split; [done|discriminate].
  - exists 0.0, 0.0.
    cbn [depth_m depth_ft is_ocean estimated source].
    split; [done|]. split; [done|]. split; [lra|].
    split; [unfold M_TO_FT; lra|]. split; [intros; lra|]. split; [done|discriminate].
Qed.

Lemma get_bathymetry_consistent (N : network) (history : list event)
    (svc : service) (lat lon : Q) :
  map_Forall (fun _ r => consistent_result r) svc ->
  (exists r, (get_bathymetry N history svc lat lon).1.1 = to_dict r /\
             consistent_result r) /\
  map_Forall (fun _ r => consistent_result r) (get_bathymetry N history svc lat lon).2.
Proof.
  intros Hsvc. unfold get_bathymetry.
  destruct (svc !! cache_key lat lon) as [r|] eqn:E; cbn [fst snd].
  - split; [|done]. exists r. split; [done|]. by eapply Hsvc.
  - pose proof (try_fetch_consistent (net_elevation N history lat lon)) as Hc.
    split; [by eexists|]. by apply map_Forall_insert_2.
Qed.

(** X13.  Every record a service that started empty ever returns is
    consistent: the depth in metres is not negative, the depth in feet
    is that depth times 3.28084, land has depth 0, and [estimated] is
    set exactly on the fallback. *)
Theorem service_results_consistent (N : network) (coords : list (Q * Q))
    (history : list event) (svc : service) (lat lon : Q) :
  map_Forall (fun _ r => consistent_result r) svc ->
  let '(history', svc') := lookups N history svc coords in
  exists r, (get_bathymetry N history' svc' lat lon).1.1 = to_dict r /\
            consistent_result r.
Proof.
  revert history svc. induction coords as [|[la lo] coords IH]; intros history svc Hsvc.
  - cbn. by apply get_bathymetry_consistent.
  - cbn [lookups].
    pose proof (get_bathymetry_consistent N history svc la lo Hsvc) as [_ Hsvc'].
    destruct (get_bathymetry N history svc la lo) as [[d evs] svc']. by apply IH.
Qed.

Lemma service_results_consistent_witness :
  exists r,
    (get_bathymetry net_down [EvElevation 12 93]
       (lookups net_down [] new_service [(12, 93)]).2 11.6808 92.5566).1.1
    = to_dict r /\ consistent_result r.
Proof.
  apply (service_results_consistent net_down [(12, 93)] [] new_service
           11.6808 92.5566).
  apply map_Forall_empty.
Defined.

Lemma get_bathymetry_accounting (N : network) (history : list event)
    (svc : service) (lat lon : Q) :
  let '(_, evs, svc') := get_bathymetry N history svc lat lon in
  (length evs + size svc = size svc')%nat /\
  dom svc' = dom svc ∪ {[ cache_key lat lon ]} /\
  Forall (fun e => exists la lo, e = EvElevation la lo) evs /\
  (length evs <= 1)%nat.
Proof.
  unfold get_bathymetry. destruct (svc !! cache_key lat lon) as [r|] eqn:E.
  - split; [done|]. split; [|split; [constructor | cbn; lia]].
    apply elem_of_dom_2 in E. set_solver.
  - split; [cbn; by rewrite map_size_insert_None|]. split; [|split].
    + rewrite dom_insert_L. set_solver.
    + repeat constructor. by eexists _, _.
    + cbn. lia.
Qed.

(** X14.  Over any sequence of calls, the service makes one elevation request
    for each key it adds to its cache and none for a key it holds: the
    requests made equal the growth of the cache, the cache holds the
    keys asked, and so the requests never exceed the calls. *)
Theorem lookups_accounting (N : network) (coords : list (Q * Q))
    (history : list event) (svc : service) :
  let '(history', svc') := lookups N history svc coords in
  exists evs, history' = history ++ evs /\
    Forall (fun e => exists la lo, e = EvElevation la lo) evs /\
    (length evs + size svc = size svc')%nat /\
    dom svc' = dom svc ∪ keys_of coords /\
    (length evs <= length coords)%nat.
Proof.
  revert history svc. induction coords as [|[la lo] coords IH]; intros history svc.
  - cbn. exists []. rewrite app_nil_r. unfold keys_of. cbn.
    repeat split; [constructor | set_solver | lia].
  - cbn [lookups].
    pose proof (get_bathymetry_accounting N history svc la lo) as Hg.
    destruct (get_bathymetry N history svc la lo) as [[d evs1] svc1].
    destruct Hg as (Hsz & Hdom & Hev & Hone).
    specialize (IH (history ++ evs1) svc1).
    destruct (lookups N (history ++ evs1) svc1 coords) as [history' svc'].
    destruct IH as (evs & -> & Hevs & Hsz' & Hdom' & Hlen).
    exists (evs1 ++ evs). rewrite app_assoc. split; [done|].
    split; [by apply Forall_app|]. rewrite length_app.
    split; [lia|]. split; [|cbn; lia].
    rewrite Hdom', Hdom. unfold keys_of. cbn. set_solver.
Qed.

Lemma lookups_accounting_witness :
  let '(history', svc') :=
    lookups net_ocean [] new_service
      [(11.680801, 92.5566); (12, 93); (11.680804, 92.5566)] in
  length history' = 2%nat /\ size svc' = 2%nat.
Proof.
  pose proof (lookups_accounting net_ocean
                [(11.680801, 92.5566); (12, 93); (11.680804, 92.5566)]
                [] new_service) as H.
  destruct (lookups net_ocean [] new_service _) as [history' svc'] eqn:E.
  destruct H as (evs & -> & _ & Hsz & _).
  assert (Hs : size svc' = 2%nat).
  { apply (f_equal snd) in E. cbn [snd] in E. rewrite <- E. vm_compute. reflexivity. }
  unfold new_service in Hsz. rewrite map_size_empty in Hsz.
  rewrite length_app. cbn [length]. split; [lia | done].
Defined.

End BathymetryMore.

(** ** Geocoding and the regional weather *)

Section Lookups.
Import Collector.
Context (L : pylib) (N : network).

Lemma geocode_parsed (location : string) (w : world) (lat lon : Q) :
  parsed_pair L location = Some (lat, lon) ->
  geocode_location L N location w
    = (Ok (Some (Place lat lon (custom_name lat lon))), w).
Proof.
  unfold parsed_pair, geocode_location, custom_name. intros H.
  destruct (contains "," location); [|discriminate].
  destruct (float_of_string L _) as [la|]; [|discriminate].
  destruct (float_of_string L _) as [lo|]; [|discriminate].
  by injection H as -> ->.
Qed.

Lemma geocode_unparsed (location : string) (w : world) :
  parsed_pair L location = None ->
  geocode_location L N location w
    = (Ok (match net_geocode N (trace w) location with
           | Json (r0 :: _) => Some r0
           | _ => None
           end),
       World (trace w ++ [EvGeocode location]) (bathy_service w)).
Proof.
  unfold parsed_pair, geocode_location, custom_name. intros H.
  assert (E : (if contains "," location
               then match float_of_string L (strip (nth 0 (split "," location) "")),
                          float_of_string L (strip (nth 1 (split "," location) "")) with
                    | Some lat, Some lon =>
                        Some (Place lat lon
                                ("Custom Location (" +:+ format_fixed 4 lat +:+ ", "
                                 +:+ format_fixed 4 lon +:+ ")"))
                    | _, _ => None
                    end
               else None) = None).
  { destruct (contains "," location); [|done].
    destruct (float_of_string L _) as [la|]; [|done].
    by destruct (float_of_string L _) as [lo|]. }
  rewrite E, bind_io. unfold request.
  by destruct (net_geocode N (trace w) location) as [|[|r0 rs]].
Qed.

(** X15.  [geocode_location] never raises and never touches the bathymetry
    cache.  A string with a comma whose first two parts convert to
    floats is answered without any request, under the name "Custom
    Location (..)"; any other string costs exactly one geocoding
    request, answered by the first result of the service, or by
    nothing when the request fails or has no result. *)
Theorem geocode_location_cases (location : string) (w : world) :
  (forall lat lon, parsed_pair L location = Some (lat, lon) ->
     geocode_location L N location w
       = (Ok (Some (Place lat lon (custom_name lat lon))), w)) /\
  (parsed_pair L location = None ->
     geocode_location L N location w
       = (Ok (match net_geocode N (trace w) location with
              | Json (r0 :: _) => Some r0
              | _ => None
              end),
          World (trace w ++ [EvGeocode location]) (bathy_service w))).
Proof.
  split; [intros lat lon H; by apply geocode_parsed | apply geocode_unparsed].
Qed.

(** The requests of [geocode_location]: none, or one geocoding request. *)
Lemma geocode_location_trace (location : string) (w : world) :
  exists r evs,
    geocode_location L N location w
      = (Ok r, World (trace w ++ evs) (bathy_service w)) /\
    (evs = [] \/ evs = [EvGeocode location]).
Proof.
  destruct (parsed_pair L location) as [[la lo]|] eqn:E.
  - rewrite (geocode_parsed _ w _ _ E). eexists _, []. rewrite app_nil_r.
    split; [by destruct w | by left].
  - rewrite (geocode_unparsed _ w E). eexists _, _. split; [done | by right].
Qed.

Lemma try_offsets_spec (lat lon : Q) (offs : list (Q * Q)) (w : world) :
  exists d n,
    try_offsets N lat lon offs w
      = (Ok d, World (trace w ++ take n (map (fun o => EvForecast (lat + o.1) (lon + o.2)) offs))
                 (bathy_service w)) /\
    d <> ∅ /\ (n <= length offs)%nat /\
    ((d = default_weather /\ n = length offs) \/
     (exists i, n = S i /\
        exists o, offs !! i = Some o /\
          net_forecast N
            (trace w ++ take i (map (fun o => EvForecast (lat + o.1) (lon + o.2)) offs))
            (lat + o.1) (lon + o.2) = Json (Some d))).
Proof.
  revert w. induction offs as [|[dlat dlon] rest IH]; intros w.
  - exists default_weather, 0%nat. cbn. rewrite app_nil_r. split; [by destruct w|].
    split; [|split; [lia | by left]].
    intros H. apply (f_equal (fun m => m !! "visibility"%string)) in H.
    vm_compute in H. discriminate.
  - cbn [try_offsets]. rewrite bind_io. unfold request at 1.
    set (w1 := World (trace w ++ [EvForecast (lat + dlat) (lon + dlon)]) (bathy_service w)).
    destruct (IH w1) as (d & n & Hrun & Hne & Hn & Hcase).
    assert (Hnext : exists d n,
              try_offsets N lat lon rest w1
                = (Ok d, World (trace w ++ take n (map (fun o => EvForecast (lat + o.1) (lon + o.2))
                                                     ((dlat, dlon) :: rest)))
                           (bathy_service w)) /\
              d <> ∅ /\ (n <= length ((dlat, dlon) :: rest))%nat /\
              ((d = default_weather /\ n = length ((dlat, dlon) :: rest)) \/
               (exists i, n = S i /\
                  exists o, ((dlat, dlon) :: rest) !! i = Some o /\
                    net_forecast N
                      (trace w ++ take i (map (fun o => EvForecast (lat + o.1) (lon + o.2))
                                            ((dlat, dlon) :: rest)))
                      (lat + o.1) (lon + o.2) = Json (Some d)))).
    { exists d, (S n). rewrite Hrun. cbn [map take length trace bathy_service w1 fst snd].
      rewrite <- app_assoc. split; [done|]. split; [done|]. split; [lia|].
      destruct Hcase as [[-> ->] | (i & -> & o & Ho & Hnet)]; [by left|].
      right. exists (S i). split; [done|]. exists o. split; [done|].
      cbn [take map fst snd]. cbn [trace w1] in Hnet.
      by rewrite <- app_assoc in Hnet. }
    destruct (net_forecast N (trace w) (lat + dlat) (lon + dlon)) as [|[current|]] eqn:En;
      [exact Hnext | | exact Hnext].
    case_bool_decide as Hc; [exact Hnext|].
    exists current, 1%nat. cbn [map take length fst snd]. split; [done|].
    split; [done|]. split; [lia|]. right. exists 0%nat. split; [done|].
    exists (dlat, dlon). split; [done|]. cbn. by rewrite app_nil_r.
Qed.


End Lookups.

Lemma geocode_location_cases_witness :
  Collector.geocode_location ExampleLib.lib net_land "11.6808, 92.5566" world0
    = (Ok (Some (Place (Qred 11.6808) (Qred 92.5566)
                   (custom_name (Qred 11.6808) (Qred 92.5566)))), world0) /\
  Collector.geocode_location ExampleLib.lib net_land "Port Blair" world0
    = (Ok None, Collector.World [EvGeocode "Port Blair"] Bathymetry.new_service).
Proof.
  destruct (geocode_location_cases ExampleLib.lib net_land "11.6808, 92.5566" world0)
    as [Hparsed _].
  destruct (geocode_location_cases ExampleLib.lib net_land "Port Blair" world0)
    as [_ Hasked].
  split.
  - apply Hparsed. vm_compute. reflexivity.
  - by rewrite Hasked.
Defined.

Lemma get_regional_weather_third :
  Collector.get_regional_weather net_third 11.6808 92.5566 world0
  = (Ok weather_calm,
     Collector.World (take 3 (forecast_requests 11.6808 92.5566)) Bathymetry.new_service).
Proof. vm_compute. reflexivity. Qed.

(** ** Coordinate strings between the planner, the form and the collector *)

Section CoordinateStrings.

Lemma split_length (c : ascii) (s : string) :
  length (split c s) = S (count_char c s).
Proof.
  induction s as [|a s IH]; [done|]. cbn [split count_char].
  destruct (Ascii.eqb a c); cbn [length]; [by rewrite IH|].
  destruct (split c s) as [|p ps]; [discriminate|]. cbn in *. lia.
Qed.

Lemma contains_count (c : ascii) (s : string) :
  contains c s = true <-> (0 < count_char c s)%nat.
Proof.
  induction s as [|a s IH]; cbn [contains count_char]; [split; [done | lia]|].
  destruct (Ascii.eqb a c); [split; [lia | done]|]. by rewrite IH.
Qed.

Lemma all_chars_app (P : ascii -> bool) (s t : string) :
  all_chars P (s +:+ t) = all_chars P s && all_chars P t.
Proof.
  induction s as [|a s IH]; [done|].
  change (String a s +:+ t) with (String a (s +:+ t)). cbn [all_chars].
  by rewrite IH, andb_assoc.
Qed.

Lemma plain_no_comma (s : string) : all_chars plain_char s = true -> contains "," s = false.
Proof.
  induction s as [|a s IH]; [done|]. cbn. unfold plain_char at 1.
  intros H. apply andb_true_iff in H as [H1 H2].
  apply andb_true_iff in H1 as [_ H1]. apply negb_true_iff in H1.
  rewrite H1. by apply IH.
Qed.

Lemma split_plain (s : string) : contains "," s = false -> split "," s = [s].
Proof.
  induction s as [|a s IH]; [done|]. cbn.
  destruct (Ascii.eqb a ","); [done|]. intros H. by rewrite (IH H).
Qed.

Lemma split_app_comma (s t : string) :
  contains "," s = false -> split "," (s +:+ String "," t) = s :: split "," t.
Proof.
  induction s as [|a s IH]; [done|].
  change (String a s +:+ String "," t) with (String a (s +:+ String "," t)).
  cbn [split contains].
  destruct (Ascii.eqb a ","); [done|]. intros H. by rewrite (IH H).
Qed.

Lemma contains_app_comma (s t : string) : contains "," (s +:+ String "," t) = true.
Proof.
  induction s as [|a s IH]; [done|].
  change (String a s +:+ String "," t) with (String a (s +:+ String "," t)).
  cbn [contains]. by destruct (Ascii.eqb a ",").
Qed.

Lemma lstrip_plain (s : string) : all_chars plain_char s = true -> lstrip s = s.
Proof.
  destruct s as [|a s]; [done|]. cbn. unfold plain_char at 1. intros H.
  apply andb_true_iff in H as [H _]. apply andb_true_iff in H as [H _].
  apply negb_true_iff in H. by rewrite H.
Qed.

Lemma rstrip_plain (s : string) : all_chars plain_char s = true -> rstrip s = s.
Proof.
  induction s as [|a s IH]; [done|]. cbn. unfold plain_char at 1. intros H.
  apply andb_true_iff in H as [H Hs]. apply andb_true_iff in H as [H _].
  apply negb_true_iff in H. rewrite (IH Hs), H. by destruct s.
Qed.

Lemma strip_plain (s : string) : all_chars plain_char s = true -> strip s = s.
Proof.
  intros H. unfold strip. rewrite (lstrip_plain s H). by apply rstrip_plain.
Qed.

Lemma strip_space_plain (s : string) :
  all_chars plain_char s = true -> strip (String " " s) = s.
Proof.
  intros H. unfold strip. change (lstrip (String " " s)) with (lstrip s).
  rewrite (lstrip_plain s H). by apply rstrip_plain.
Qed.

Lemma pretty_N_char_plain (x : N) : plain_char (pretty_N_char x) = true.
Proof. unfold pretty_N_char. by repeat case_match. Qed.

Lemma pretty_N_go_plain (x : N) (s : string) :
  all_chars plain_char s = true -> all_chars plain_char (pretty_N_go x s) = true.
Proof.
  revert s. induction (N.lt_wf_0 x) as [x _ IH]; intros s Hs.
  destruct (decide (0 < x)%N) as [Hx | Hx].
  - rewrite pretty_N_go_step by done. apply IH.
    + apply N.div_lt; lia.
    + cbn. by rewrite pretty_N_char_plain.
  - assert (x = 0%N) as -> by lia. by rewrite pretty_N_go_0.
Qed.

Lemma pretty_N_plain (x : N) : all_chars plain_char (pretty x) = true.
Proof.
  unfold pretty, pretty_N. case_decide; [done|]. by apply pretty_N_go_plain.
Qed.

Lemma zeros_plain (k : nat) : all_chars plain_char (zeros k) = true.
Proof.
  induction k as [|k IH]; [done|].
  change (zeros (S k)) with (String "0" (zeros k)). cbn [all_chars]. by rewrite IH.
Qed.

(** A number in fixed notation has no comma and no white space. *)
Lemma format_fixed_plain (n : nat) (x : Q) :
  all_chars plain_char (format_fixed n x) = true.
Proof.
  unfold format_fixed, pad_zeros. rewrite !all_chars_app, pretty_N_plain.
  destruct (Py.lt x 0); destruct n; cbn [all_chars andb];
    rewrite ?all_chars_app, ?zeros_plain, ?pretty_N_plain; done.
Qed.

Lemma parsed_pair_formatted (L : pylib) (x y x' y' : Q) :
  float_of_string L (format_fixed 4 x) = Some x' ->
  float_of_string L (format_fixed 4 y) = Some y' ->
  parsed_pair L (format_fixed 4 x +:+ ", " +:+ format_fixed 4 y) = Some (x', y').
Proof.
  intros Hx Hy. unfold parsed_pair.
  pose proof (format_fixed_plain 4 x) as Px. pose proof (format_fixed_plain 4 y) as Py.
  change (", " +:+ format_fixed 4 y) with (String "," (String " " (format_fixed 4 y))).
  rewrite contains_app_comma, (split_app_comma _ _ (plain_no_comma _ Px)).
  assert (Ps : contains "," (String " " (format_fixed 4 y)) = false)
    by (cbn; by apply plain_no_comma).
  rewrite (split_plain _ Ps). cbn [nth].
  by rewrite (strip_plain _ Px), (strip_space_plain _ Py), Hx, Hy.
Qed.

(** X17.  The collector reads the center the planner wrote without asking the
    geocoding service: the string [center_location] of
    [build_derived_geometry] always has the form the collector parses
    itself, and the center of the run is what [float] makes of the two
    numbers printed with four decimals. *)
Theorem center_location_round_trip (L : pylib) (N : network) (inp : inputs)
    (w : Collector.world) (lat' lon' : Q) :
  let a := in_lateral_limit_a inp in
  let b := in_lateral_limit_b inp in
  float_of_string L (format_fixed 4 ((lat a + lat b) / 2.0)) = Some lat' ->
  float_of_string L (format_fixed 4 ((lon a + lon b) / 2.0)) = Some lon' ->
  Collector.geocode_location L N
    (in_center_location (Planner.build_derived_geometry L inp)) w
  = (Ok (Some (Place lat' lon' (custom_name lat' lon'))), w).
Proof.
  intros a b Hlat Hlon. apply geocode_parsed.
  exact (parsed_pair_formatted L _ _ _ _ Hlat Hlon).
Qed.

Lemma center_location_round_trip_witness :
  Collector.geocode_location ExampleLib.lib net_land
    (in_center_location (Planner.build_derived_geometry ExampleLib.lib (inputs_radius 1)))
    world0
  = (Ok (Some (Place (Qred 11.6808) (Qred 92.5566)
                 (custom_name (Qred 11.6808) (Qred 92.5566)))), world0).
Proof.
  apply (center_location_round_trip ExampleLib.lib net_land (inputs_radius 1) world0);
    vm_compute; reflexivity.
Defined.

(** X18.  The form's [_parse_latlon] accepts a text only if it has exactly
    one comma, and raises [ValueError] otherwise; whatever it accepts,
    the collector's [geocode_location] reads as the same pair, without
    a request. *)
Theorem _parse_latlon_agrees (L : pylib) (text : string) :
  (count_char "," text <> 1%nat ->
   exists msg, App._parse_latlon L text = Raise (ValueError msg)) /\
  (forall p, App._parse_latlon L text = Ok p ->
     count_char "," text = 1%nat /\
     forall N w,
       Collector.geocode_location L N text w
       = (Ok (Some (Place (lat p) (lon p) (custom_name (lat p) (lon p)))), w)).
Proof.
  pose proof (split_length "," text) as Hlen.
  pose proof (contains_count "," text) as Hc.
  unfold App._parse_latlon. split.
  - intros Hn. destruct (split "," text) as [|a [|b [|c rest]]]; cbn in Hlen;
      try by eexists. lia.
  - intros p Hp. destruct (split "," text) as [|a [|b [|c rest]]] eqn:Es;
      try discriminate. cbn in Hlen.
    split; [lia|]. intros N w.
    destruct (float_of_string L (strip a)) as [la|] eqn:Ea; [|discriminate].
    destruct (float_of_string L (strip b)) as [lo|] eqn:Eb; [|discriminate].
    injection Hp as <-. cbn [lat lon]. apply geocode_parsed.
    unfold parsed_pair. rewrite (proj2 Hc) by lia. rewrite Es. cbn [nth].
    by rewrite Ea, Eb.
Qed.

Lemma _parse_latlon_agrees_witness :
  (exists msg, App._parse_latlon ExampleLib.lib "11.8269; 92.5228" = Raise (ValueError msg)) /\
  Collector.geocode_location ExampleLib.lib net_land "11.8269, 92.5228" world0
  = (Ok (Some (Place (Qred 11.8269) (Qred 92.5228)
                 (custom_name (Qred 11.8269) (Qred 92.5228)))), world0).
Proof.
  split.
  - apply (proj1 (_parse_latlon_agrees ExampleLib.lib "11.8269; 92.5228")).
    vm_compute. discriminate.
  - destruct (proj2 (_parse_latlon_agrees ExampleLib.lib "11.8269, 92.5228")
                (LatLon (Qred 11.8269) (Qred 92.5228))) as [_ H].
    + vm_compute. reflexivity.
    + apply H.
Defined.

End CoordinateStrings.

(** ** Grid generation: when it returns, and in what order *)

Section GridMore.
Import Collector.
Context (L : pylib) (inp : inputs) (clat clon radius_nm spacing_nm : Q).




Lemma nm_pos (x : Q) : 0 < x -> 0 < x * 1.0 / 60.0.
Proof. intros H. apply Qlt_shift_div_l; lra. Qed.



Lemma StronglySorted_snoc (l : list latlon) (x : latlon) :
  StronglySorted before l -> Forall (fun p => before p x) l ->
  StronglySorted before (l ++ [x]).
Proof.
  induction 1 as [|y ys Hys IH Hall]; intros Hx; cbn.
  - repeat constructor.
  - inversion Hx as [|? ? Hy Hrest]; subst. constructor; [by apply IH|].
    apply Forall_app. split; [done | by constructor].
Qed.

Lemma lon_loop_ordered (fuel : nat) (lat0 lon0 : Q) (points points' : list latlon) :
  0 < spacing_nm ->
  lon_loop L inp clat clon radius_nm spacing_nm fuel lat0 lon0 points = Ok points' ->
  StronglySorted before points ->
  Forall (fun p => before p (LatLon lat0 lon0)) points ->
  StronglySorted before points' /\ Forall (fun p => lat p <= lat0) points'.
Proof.
  intros Hs. pose proof (nm_pos _ Hs) as Hs'.
  revert lon0 points. induction fuel as [|fuel IH]; intros lon0 points H Hsorted Hbelow;
    cbn [lon_loop] in H; [discriminate|].
  destruct (Py.le lon0 _).
  2: { injection H as <-. split; [done|].
       eapply Forall_impl; [exact Hbelow|]. unfold before. cbn [lat lon].
       intros p [Hp | [Hp _]]; lra. }
  destruct (m_sqrt L _) as [d| |]; cbn [mbind res_bind bind] in H; try discriminate.
  apply IH in H; [done | |].
  - destruct (_ && _); [|done]. by apply StronglySorted_snoc.
  - assert (Hmove : Forall (fun p => before p (LatLon lat0 (lon0 + spacing_nm * 1.0 / 60.0)))
                      points).
    { eapply Forall_impl; [exact Hbelow|]. unfold before. cbn [lat lon].
      intros p [Hp | [Hp1 Hp2]]; [by left | right; split; [done | lra]]. }
    destruct (_ && _); [|done]. apply Forall_app. split; [done|].
    constructor; [|constructor]. unfold before. cbn [lat lon].
    right. split; [reflexivity | lra].
Qed.

Lemma lat_loop_ordered (fuel fuel_lon : nat) (lat0 : Q) (points points' : list latlon) :
  0 < spacing_nm ->
  lat_loop L inp clat clon radius_nm spacing_nm fuel fuel_lon lat0 points = Ok points' ->
  StronglySorted before points ->
  Forall (fun p => lat p < lat0) points ->
  StronglySorted before points'.
Proof.
  intros Hs. pose proof (nm_pos _ Hs) as Hs'.
  revert lat0 points. induction fuel as [|fuel IH]; intros lat0 points H Hsorted Hbelow;
    cbn [lat_loop] in H; [discriminate|].
  destruct (Py.le lat0 _); [|by injection H as <-].
  destruct (lon_loop _ _ _ _ _ _ _ _ _ _) as [row| |] eqn:Erow;
    cbn [mbind res_bind bind] in H; try discriminate.
  apply lon_loop_ordered in Erow as [Hrow Hlat]; [|done|done|].
  - apply IH in H; [done | done |].
    eapply Forall_impl; [exact Hlat|]. intros p Hp. cbn [lat lon] in Hp. lra.
  - eapply Forall_impl; [exact Hbelow|]. intros p Hp. by left.
Qed.

(** X20.  The grid comes out in row-major order, by latitude and then by
    longitude, each point strictly before the ones after it: no
    coordinate is generated twice. *)
Theorem generate_grid_points_ordered (fuel : nat) (points : list latlon) :
  0 < spacing_nm ->
  generate_grid_points L inp clat clon radius_nm spacing_nm fuel = Ok points ->
  StronglySorted before points /\
  forall i j p q, (i < j)%nat -> points !! i = Some p -> points !! j = Some q ->
    ~ (lat p == lat q /\ lon p == lon q).
Proof.
  intros Hs H. assert (Hsorted : StronglySorted before points).
  { eapply lat_loop_ordered; [done | exact H | constructor | constructor]. }
  split; [done|]. clear H. induction Hsorted as [|x xs Hxs IH Hall].
  - intros i j p q _ Hi. by rewrite lookup_nil in Hi.
  - intros i j p q Hij Hi Hj. destruct j as [|j]; [lia|]. cbn in Hj.
    destruct i as [|i].
    + cbn in Hi. injection Hi as ->. rewrite Forall_forall in Hall.
      assert (Hq : before p q) by (apply Hall; by eapply list_elem_of_lookup_2).
      intros [E1 E2]. destruct Hq as [Hq | [_ Hq]]; lra.
    + cbn in Hi. eapply IH; [|done|done]. lia.
Qed.

End GridMore.


Lemma generate_grid_points_ordered_witness :
  exists points,
    Collector.generate_grid_points ExampleLib.lib (inputs_radius 1)
      11.6808 92.5566 1 1 5 = Ok points /\
    length points = 5%nat /\ StronglySorted before points.
Proof.
  pose (points := match Collector.generate_grid_points ExampleLib.lib (inputs_radius 1)
                          11.6808 92.5566 1 1 5 with
                  | Ok l => l
                  | _ => []
                  end).
  assert (H : Collector.generate_grid_points ExampleLib.lib (inputs_radius 1)
                11.6808 92.5566 1 1 5 = Ok points) by (vm_compute; reflexivity).
  exists points. split; [exact H|]. split; [vm_compute; reflexivity|].
  exact (proj1 (generate_grid_points_ordered ExampleLib.lib (inputs_radius 1)
                  11.6808 92.5566 1 1 5 points eq_refl H)).
Defined.

(** ** The collection run as a whole *)

Section CollectMore.
Import Collector.
Context (L : pylib) (N : network).

Lemma histogram_total_count (h : gmap string nat) (src : string) :
  histogram_total (<[src := (default 0 (h !! src) + 1)%nat]> h)
  = S (histogram_total h).
Proof.
  unfold histogram_total.
  destruct (h !! src) as [n|] eqn:E; cbn [default from_option id].
  - rewrite <- (insert_delete_id h src n E).
    assert (Hd : delete src h !! src = None) by apply lookup_delete_eq.
    rewrite insert_insert_eq.
    rewrite !map_fold_insert_L by (try done; intros; lia). lia.
  - rewrite map_fold_insert_L by (try done; intros; lia). lia.
Qed.

Lemma forecast_requests_quiet (lat lon : Q) (offs : list (Q * Q)) (n : nat) :
  omap sleep_of (take n (map (fun o => EvForecast (lat + o.1) (lon + o.2)) offs)) = [] /\
  omap progress_of (take n (map (fun o => EvForecast (lat + o.1) (lon + o.2)) offs)) = [].
Proof.
  revert n. induction offs as [|o offs IH]; intros [|n]; try done. cbn. apply IH.
Qed.

Section Loop.
Context (center : place) (target : option place) (region_weather : gmap string Q)
        (progress : bool) (rate_limit_s : Q) (total : nat).

Lemma report_run (i : nat) (stats : CollectorStats) (w : world) :
  report progress total i stats w
  = (Ok tt, World (trace w ++ (if progress then [EvProgress (i + 1) total stats] else []))
              (bathy_service w)).
Proof.
  unfold report. destruct progress; [done|]. rewrite app_nil_r. by destruct w.
Qed.

Lemma collect_point_detail (i : nat) (p : latlon) (stats : CollectorStats)
    (analyzed : list point_data) (w : world)
    (stats' : CollectorStats) (analyzed' : list point_data) (w' : world) :
  collect_point L N center target region_weather progress rate_limit_s total
    i p (stats, analyzed) w = (Ok (stats', analyzed'), w') ->
  exists fetch,
    trace w' = trace w ++ EvMarine (lat p) (lon p) :: fetch
               ++ (if progress then [EvProgress (i + 1) total stats'] else [])
               ++ [EvSleep rate_limit_s] /\
    (fetch = [] \/ fetch = [EvElevation (lat p) (lon p)]) /\
    histogram_total (bathy_sources stats') = S (histogram_total (bathy_sources stats)) /\
    ((analyzed' = analyzed /\
      land_points stats' = (land_points stats + 1)%nat /\
      ocean_points stats' = ocean_points stats) \/
     (exists pd, analyzed' = analyzed ++ [pd] /\ coordinates pd = p /\
                 built_point region_weather target pd /\
                 land_points stats' = land_points stats /\
                 ocean_points stats' = (ocean_points stats + 1)%nat)).
Proof.
  pose proof (bathymetry_is_ocean_some N (trace (after_marine w p))
                (bathy_service w) (lat p) (lon p)) as [oc Hoc].
  pose proof (bathymetry_events N (trace (after_marine w p))
                (bathy_service w) (lat p) (lon p)) as Hevs.
  unfold collect_point. rewrite bind_io.
  destruct (get_marine_data_spec N w p) as [marine ->].
  rewrite bind_io. unfold get_bathymetry at 1.
  cbn [bathy_service after_marine] in *. fold (after_marine w p) in *.
  destruct (Bathymetry.get_bathymetry N (trace (after_marine w p))
              (bathy_service w) (lat p) (lon p)) as [[bathy fetch] svc'].
  cbn [fst snd] in *. rewrite Hoc.
  change (negb (default true (Some oc))) with (negb oc).
  set (w2 := World (trace (after_marine w p) ++ fetch) svc').
  set (src := default "Unknown"%string (bd_source bathy)).
  destruct oc; cbn [negb].
  - rewrite bind_io. unfold lift at 1.
    destruct (calculate_distance_nm L _ _ _ _) as [dc|e|]; try discriminate.
    rewrite bind_io.
    assert (Edt : exists rt,
              (match target with
               | Some t =>
                   lift (calculate_distance_nm L (loc_lat t) (loc_lon t)
                           (lat p) (lon p)) ≫= λ d : Q, mret (Some d)
               | None => mret None
               end) w2 = (rt, w2) /\
              forall dt, rt = Ok dt -> (dt = None <-> target = None)).
    { destruct target as [t|]; [|eexists; split; [done|]; by intros ? [= <-]].
      rewrite bind_io. unfold lift.
      destruct (calculate_distance_nm L _ _ _ _); eexists; (split; [done|]);
        intros ? [= <-]; done. }
    destruct Edt as (rt & -> & Hdt).
    destruct rt as [dt|e|]; try discriminate.
    rewrite bind_io, report_run, bind_io. unfold emit at 1.
    cbn [trace bathy_service]. intros [= <- <- <-].
    exists fetch. cbn [trace w2 after_marine bathy_sources add_ocean count_source].
    rewrite <- !app_assoc. split; [done|]. split; [done|].
    split; [apply histogram_total_count|]. right.
    eexists. split; [done|]. split; [by destruct p|].
    split; [|done]. split; [done|]. split; [done | by apply Hdt].
  - rewrite bind_io, report_run, bind_io. unfold emit at 1.
    cbn [trace bathy_service]. intros [= <- <- <-].
    exists fetch. cbn [trace w2 after_marine bathy_sources add_land count_source].
    rewrite <- !app_assoc. split; [done|]. split; [done|].
    split; [apply histogram_total_count|]. by left.
Qed.

Lemma collect_loop_detail (points : list latlon) (i : nat) (stats : CollectorStats)
    (analyzed : list point_data) (w : world)
    (stats' : CollectorStats) (analyzed' : list point_data) (w' : world) :
  collect_loop L N center target region_weather progress rate_limit_s total
    i points (stats, analyzed) w = (Ok (stats', analyzed'), w') ->
  exists evs new,
    trace w' = trace w ++ evs /\ analyzed' = analyzed ++ new /\
    omap sleep_of evs = replicate (length points) rate_limit_s /\
    (if progress
     then reports_ok i (length points) total
            (ocean_points stats + land_points stats) (omap progress_of evs)
     else omap progress_of evs = []) /\
    sublist (map coordinates new) points /\
    Forall (built_point region_weather target) new /\
    histogram_total (bathy_sources stats')
    = (histogram_total (bathy_sources stats) + length points)%nat.
Proof.
  revert i stats analyzed w. induction points as [|p ps IH];
    intros i stats analyzed w H.
  - cbn in H. injection H as <- <- <-. exists [], []. rewrite !app_nil_r.
    cbn. split; [done|]. split; [done|]. split; [done|].
    split; [destruct progress; [constructor | done]|].
    split; [constructor|]. split; [constructor | lia].
  - cbn [collect_loop] in H. rewrite bind_io in H.
    destruct (collect_point L N center target region_weather progress rate_limit_s
                total i p (stats, analyzed) w) as [[[stats1 analyzed1]|e|] w1] eqn:Ep;
      try discriminate.
    apply collect_point_detail in Ep as (fetch & Htr & Hfetch & Hhist & Hcase).
    apply IH in H as (evs & new & Htr' & -> & Hsleep & Hrep & Hsub & Hbuilt & Hhist').
    assert (Hcount : (ocean_points stats1 + land_points stats1
                      = ocean_points stats + land_points stats + 1)%nat /\
                     exists first, analyzed1 = analyzed ++ first /\
                       sublist (map coordinates first ++ map coordinates new) (p :: ps) /\
                       Forall (built_point region_weather target) first).
    { destruct Hcase as [(-> & Hl & Ho) | (pd & -> & Hc & Hb & Hl & Ho)].
      - split; [lia|]. exists []. rewrite app_nil_r. split; [done|].
        split; [by apply sublist_cons | constructor].
      - split; [lia|]. exists [pd]. split; [done|]. cbn. rewrite Hc.
        split; [by apply sublist_skip | by constructor]. }
    destruct Hcount as (Hsum & first & -> & Hfirst & Hbf).
    exists (EvMarine (lat p) (lon p) :: fetch
            ++ (if progress then [EvProgress (i + 1) total stats1] else [])
            ++ [EvSleep rate_limit_s] ++ evs), (first ++ new).
    split. { rewrite Htr', Htr, <- !app_assoc. cbn. by rewrite <- !app_assoc. }
    split; [by rewrite <- app_assoc|].
    rewrite map_app. split; [|split; [|split; [done|split; [by apply Forall_app|]]]].
    + destruct Hfetch as [-> | ->]; destruct progress; cbn; by rewrite Hsleep.
    + destruct Hfetch as [-> | ->]; destruct progress; cbn; try done.
      all: unfold reports_ok in *; cbn [length seq].
      all: constructor; [cbn; repeat split; lia|].
      all: change (S (i + 1)) with (S i + 1)%nat.
      all: eapply Forall2_impl; [exact Hrep|].
      all: cbn; intros k r (? & ? & ?); repeat split; try done; lia.
    + cbn [length]. lia.
Qed.
End Loop.

(** A run of [collect] that returns: lookups that neither pause nor
    report, then the loop over the grid from empty statistics, then one
    astronomy request. *)
Lemma collect_run_shape (inp : inputs) (fuel : nat) (progress : bool)
    (rate_limit_s : Q) (w w' : world) (dat : data) :
  collect L N inp fuel progress rate_limit_s w = (Ok dat, w') ->
  exists region_weather pre w1 stats w2,
    trace w1 = trace w ++ pre /\
    omap sleep_of pre = [] /\ omap progress_of pre = [] /\
    region_weather <> ∅ /\
    collect_loop L N (d_center dat) (d_target dat) region_weather progress rate_limit_s
      (length (d_grid_points dat)) 0 (d_grid_points dat)
      (MkStats 0 0 (length (d_grid_points dat)) ∅, []) w1
      = (Ok (stats, d_analyzed_points dat), w2) /\
    trace w' = trace w2 ++ [EvAstronomy (loc_lat (d_center dat)) (loc_lon (d_center dat))] /\
    md_points_total (d_metadata dat) = length (d_grid_points dat) /\
    md_bathymetry_sources (d_metadata dat) = bathy_sources stats.
Proof.
  unfold collect. intros H. rewrite bind_io in H.
  destruct (geocode_location_trace L N (in_center_location inp) w)
    as (c & evc & Ec & Hevc). rewrite Ec in H.
  destruct c as [center|]; [|discriminate].
  set (wa := World (trace w ++ evc) (bathy_service w)) in *.
  rewrite bind_io in H.
  assert (Et : exists target evt,
             (if String.eqb (in_target_location inp) "" then mret None
              else geocode_location L N (in_target_location inp)) wa
             = (Ok target, World (trace wa ++ evt) (bathy_service wa)) /\
             (evt = [] \/ evt = [EvGeocode (in_target_location inp)])).
  { destruct (String.eqb (in_target_location inp) "").
    - exists None, []. rewrite app_nil_r. split; [done | by left].
    - apply geocode_location_trace. }
  destruct Et as (target & evt & Et & Hevt). rewrite Et in H.
  set (wb := World (trace wa ++ evt) (bathy_service wa)) in *.
  rewrite bind_io in H.
  destruct (try_offsets_spec N (loc_lat center) (loc_lon center) offsets wb)
    as (rw & n & Ew & Hne & _ & _).
  unfold get_regional_weather in H. rewrite Ew in H.
  set (evw := take n (map (fun o => EvForecast (loc_lat center + o.1) (loc_lon center + o.2))
                        offsets)) in *.
  set (wc := World (trace wb ++ evw) (bathy_service wb)) in *.
  rewrite bind_io in H. unfold lift at 1 in H.
  destruct (generate_grid_points L inp _ _ _ _ fuel) as [grid_points|e|] eqn:Eg;
    try discriminate.
  rewrite bind_io in H.
  destruct (collect_loop L N center target rw progress rate_limit_s
              (length grid_points) 0 grid_points _ wc)
    as [[[stats analyzed]|e|] wd] eqn:El; try discriminate.
  rewrite bind_io in H. unfold get_astronomical_data at 1 in H.
  rewrite bind_io in H. unfold request at 1 in H.
  assert (Hd : exists astro now,
             dat = Data center target grid_points analyzed astro
                     (Metadata now (total_points stats) (ocean_points stats)
                        (land_points stats) (bathy_sources stats)) /\
             w' = World (trace wd ++ [EvAstronomy (loc_lat center) (loc_lon center)])
                    (bathy_service wd)).
  { destruct (net_astronomy N (trace wd) (loc_lat center) (loc_lon center))
      as [|[[[|sr ?] [|ss ?]]|]];
      cbn in H; injection H as <- <-; by eexists _, _. }
  destruct Hd as (astro & now & -> & ->).
  cbn [d_center d_target d_grid_points d_analyzed_points d_metadata
       md_points_total md_bathymetry_sources trace].
  exists rw, (evc ++ evt ++ evw), wc, stats, wd.
  destruct (forecast_requests_quiet (loc_lat center) (loc_lon center) offsets n)
    as [Hqs Hqp]. fold evw in Hqs, Hqp.
  split; [subst wc wb wa; cbn; by rewrite <- !app_assoc|].
  rewrite !omap_app, Hqs, Hqp.
  split; [by destruct Hevc as [-> | ->], Hevt as [-> | ->]|].
  split; [by destruct Hevc as [-> | ->], Hevt as [-> | ->]|].
  split; [done|]. split; [exact El|]. split; [done|].
  split; [|done].
  apply collect_loop_spec in El as (_ & _ & _ & _ & Ht). exact Ht.
Qed.

(** X21.  The analyzed points of a run are grid points, in grid order: their
    coordinates form a subsequence of the grid.  All of them carry one
    and the same regional weather, which is not empty; all have a
    distance from the center, and a distance from the target exactly
    when the run has a target. *)
Theorem collect_points_from_grid (inp : inputs) (fuel : nat) (progress : bool)
    (rate_limit_s : Q) (w w' : world) (dat : data) :
  collect L N inp fuel progress rate_limit_s w = (Ok dat, w') ->
  sublist (map coordinates (d_analyzed_points dat)) (d_grid_points dat) /\
  exists region_weather,
    region_weather <> ∅ /\
    Forall (built_point region_weather (d_target dat)) (d_analyzed_points dat).
Proof.
  intros H.
  apply collect_run_shape in H
    as (rw & pre & w1 & stats & w2 & _ & _ & _ & Hne & Hloop & _).
  apply collect_loop_detail in Hloop
    as (evs & new & _ & Han & _ & _ & Hsub & Hbuilt & _).
  cbn in Han. subst. split; [done|]. by exists rw.
Qed.

(** X22.  The histogram of bathymetry sources in the metadata counts every
    grid point once: its entries add up to [points_total], the length
    of the grid, land points included. *)
Theorem collect_histogram_total (inp : inputs) (fuel : nat) (progress : bool)
    (rate_limit_s : Q) (w w' : world) (dat : data) :
  collect L N inp fuel progress rate_limit_s w = (Ok dat, w') ->
  histogram_total (md_bathymetry_sources (d_metadata dat))
  = md_points_total (d_metadata dat) /\
  md_points_total (d_metadata dat) = length (d_grid_points dat).
Proof.
  intros H.
  apply collect_run_shape in H
    as (rw & pre & w1 & stats & w2 & _ & _ & _ & _ & Hloop & _ & Ht & Hs).
  apply collect_loop_detail in Hloop as (evs & new & _ & _ & _ & _ & _ & _ & Hh).
  rewrite Hs, Ht, Hh. split; [|done]. cbn [bathy_sources].
  unfold histogram_total at 1. by rewrite map_fold_empty.
Qed.

(** X23.  A run pauses exactly once per grid point, each time for
    [rate_limit_s] seconds, land points included.  With a progress
    callback it reports once per grid point, numbered 1, 2, .. with the
    length of the grid as the total, and the statistics of the k-th
    report count k points; without a callback it reports nothing. *)
Theorem collect_pacing (inp : inputs) (fuel : nat) (progress : bool)
    (rate_limit_s : Q) (w w' : world) (dat : data) :
  collect L N inp fuel progress rate_limit_s w = (Ok dat, w') ->
  exists evs,
    trace w' = trace w ++ evs /\
    omap sleep_of evs = replicate (length (d_grid_points dat)) rate_limit_s /\
    (if progress
     then reports_ok 0 (length (d_grid_points dat)) (length (d_grid_points dat)) 0
            (omap progress_of evs)
     else omap progress_of evs = []).
Proof.
  intros H.
  apply collect_run_shape in H
    as (rw & pre & w1 & stats & w2 & Hpre & Hps & Hpp & _ & Hloop & Hpost & _).
  apply collect_loop_detail in Hloop as (evs & new & Htr & _ & Hs & Hp & _).
  exists (pre ++ evs ++ [EvAstronomy (loc_lat (d_center dat)) (loc_lon (d_center dat))]).
  split; [by rewrite Hpost, Htr, Hpre, <- !app_assoc|].
  rewrite !omap_app, Hps, Hpp, Hs. cbn [omap list_omap sleep_of progress_of].
  rewrite !app_nil_r. split; [done|]. exact Hp.
Qed.

(** X24.  When the center string is no coordinate pair and the geocoding
    service fails or has no result, [collect] raises [ValueError]
    after that one request: no forecast, marine, elevation or astronomy
    request is made and the bathymetry cache is untouched. *)
Theorem collect_unresolved_center (inp : inputs) (fuel : nat) (progress : bool)
    (rate_limit_s : Q) (w : world) :
  parsed_pair L (in_center_location inp) = None ->
  (forall r0 rs, net_geocode N (trace w) (in_center_location inp) <> Json (r0 :: rs)) ->
  collect L N inp fuel progress rate_limit_s w
  = (Raise (ValueError "Could not process center_location"),
     World (trace w ++ [EvGeocode (in_center_location inp)]) (bathy_service w)).
Proof.
  intros Hp Hg. unfold collect. rewrite bind_io, (geocode_unparsed L N _ w Hp).
  destruct (net_geocode N (trace w) (in_center_location inp)) as [|[|r0 rs]]; try done.
  by destruct (Hg r0 rs).
Qed.

End CollectMore.

Lemma collect_points_from_grid_witness :
  exists dat w',
    Collector.collect ExampleLib.lib net_ocean (inputs_radius 1) 5 true 0.25 world0
      = (Ok dat, w') /\
    length (d_analyzed_points dat) = 5%nat /\
    sublist (map coordinates (d_analyzed_points dat)) (d_grid_points dat).
Proof.
  pose (run := Collector.collect ExampleLib.lib net_ocean (inputs_radius 1) 5 true
                 0.25 world0).
  pose (dat := match run.1 with
               | Ok d => d
               | _ => Data location_center None [] [] None (metadata_of 0)
               end).
  assert (H : Collector.collect ExampleLib.lib net_ocean (inputs_radius 1) 5 true
                0.25 world0 = (Ok dat, run.2)) by (vm_compute; reflexivity).
  exists dat, run.2. split; [exact H|]. split; [vm_compute; reflexivity|].
  exact (proj1 (collect_points_from_grid ExampleLib.lib net_ocean
                  (inputs_radius 1) 5 true 0.25 world0 run.2 dat H)).
Defined.

Lemma collect_histogram_total_witness :
  exists dat w',
    Collector.collect ExampleLib.lib net_land (inputs_radius 1) 5 false 0.25 world0
      = (Ok dat, w') /\
    d_analyzed_points dat = [] /\
    histogram_total (md_bathymetry_sources (d_metadata dat)) = 5%nat.
Proof.
  pose (run := Collector.collect ExampleLib.lib net_land (inputs_radius 1) 5 false
                 0.25 world0).
  pose (dat := match run.1 with
               | Ok d => d
               | _ => Data location_center None [] [] None (metadata_of 0)
               end).
  assert (H : Collector.collect ExampleLib.lib net_land (inputs_radius 1) 5 false
                0.25 world0 = (Ok dat, run.2)) by (vm_compute; reflexivity).
  exists dat, run.2. split; [exact H|]. split; [vm_compute; reflexivity|].
  destruct (collect_histogram_total ExampleLib.lib net_land
              (inputs_radius 1) 5 false 0.25 world0 run.2 dat H) as [Hh Ht].
  rewrite Hh. vm_compute. reflexivity.
Defined.

Lemma collect_pacing_witness :
  exists dat w' evs,
    Collector.collect ExampleLib.lib net_land (inputs_radius 1) 5 true 0.25 world0
      = (Ok dat, w') /\
    Collector.trace w' = evs /\
    omap sleep_of evs = replicate 5 0.25 /\
    map (fun r => r.1) (omap progress_of evs)
    = [(1, 5); (2, 5); (3, 5); (4, 5); (5, 5)]%nat.
Proof.
  pose (run := Collector.collect ExampleLib.lib net_land (inputs_radius 1) 5 true
                 0.25 world0).
  pose (dat := match run.1 with
               | Ok d => d
               | _ => Data location_center None [] [] None (metadata_of 0)
               end).
  assert (H : Collector.collect ExampleLib.lib net_land (inputs_radius 1) 5 true
                0.25 world0 = (Ok dat, run.2)) by (vm_compute; reflexivity).
  destruct (collect_pacing ExampleLib.lib net_land
              (inputs_radius 1) 5 true 0.25 world0 run.2 dat H) as (evs & Htr & Hs & Hp).
  exists dat, run.2, evs. split; [exact H|]. cbn [Collector.trace world0 app] in Htr.
  split; [exact Htr|]. split.
  - rewrite Hs. vm_compute. reflexivity.
  - rewrite <- Htr. vm_compute. reflexivity.
Defined.

Lemma collect_unresolved_center_witness :
  Collector.collect ExampleLib.lib net_land inputs_named 5 true 0.25 world0
  = (Raise (ValueError "Could not process center_location"),
     Collector.World [EvGeocode "Port Blair"] Bathymetry.new_service).
Proof.
  apply (collect_unresolved_center ExampleLib.lib net_land inputs_named 5 true 0.25 world0).
  - vm_compute. reflexivity.
  - intros r0 rs. discriminate.
Defined.

(** ** Sectors, midpoints and colours *)

Section SectorsAndColours.
Context (L : pylib).

Lemma collector_bearing_range (lat1 lon1 lat2 lon2 : Q) :
  0 <= Collector.calculate_bearing L lat1 lon1 lat2 lon2 /\
  Collector.calculate_bearing L lat1 lon1 lat2 lon2 < 360.
Proof.
  unfold Collector.calculate_bearing. apply mod_range. reflexivity.
Qed.

(** X25.  With the default limits 0 and 360 the sector test accepts every
    point.  For two different limits, the sector from the first to the
    second and the sector from the second to the first together accept
    every point, and only a point whose bearing is exactly one of the
    limits is accepted by both.  With two equal limits the sector holds
    only the points at exactly that bearing. *)
Theorem _is_in_sector_cover (point_lat point_lon center_lat center_lon lo hi : Q) :
  let inside := Collector._is_in_sector L point_lat point_lon center_lat center_lon in
  let b := Collector.calculate_bearing L center_lat center_lon point_lat point_lon in
  inside 0 360 = true /\
  (~ lo == hi ->
   inside lo hi || inside hi lo = true /\
   (inside lo hi = true -> inside hi lo = true -> b == lo \/ b == hi)) /\
  (lo == hi -> (inside lo hi = true <-> b == lo)).
Proof.
  intros inside b. unfold inside, Collector._is_in_sector. fold b.
  destruct (collector_bearing_range center_lat center_lon point_lat point_lon)
    as [H0 H1]. fold b in H0, H1.
  unfold Py.ge. split; [|split].
  - cmp_cases; try done; lra.
  - intros Hne. split.
    + cmp_cases; try done; lra.
    + cmp_cases; cbn; intros; try done;
        destruct (Qlt_le_dec b lo), (Qlt_le_dec lo b); try lra;
        try (left; lra); right; lra.
  - intros He. cmp_cases; cbn; split; intros; try done; lra.
Qed.

(** X26.  The midpoint does not depend on the order of the two limits, and
    each of its coordinates lies between the coordinates of the
    limits: a sector is never centred across the antimeridian. *)
Theorem calculate_midpoint_between (lat1 lon1 lat2 lon2 : Q) :
  let mid := Planner.calculate_midpoint lat1 lon1 lat2 lon2 in
  let mid' := Planner.calculate_midpoint lat2 lon2 lat1 lon1 in
  (mid.1 == mid'.1 /\ mid.2 == mid'.2) /\
  (lat1 <= lat2 -> lat1 <= mid.1 /\ mid.1 <= lat2) /\
  (lon1 <= lon2 -> lon1 <= mid.2 /\ mid.2 <= lon2).
Proof.
  unfold Planner.calculate_midpoint. cbn [fst snd].
  assert (E : forall a b : Q, (a + b) / 2.0 == (a + b) * (1 # 2)) by (intros; field).
  rewrite !E. repeat split; try lra; intros; lra.
Qed.

(** X27.  A higher score never gets a worse colour, green is given from 85
    up and dark red below 40 only. *)
Theorem _score_to_color_monotone (s1 s2 : Q) :
  (s1 <= s2 ->
   (color_rank (Visualizer._score_to_color s1)
    <= color_rank (Visualizer._score_to_color s2))%nat) /\
  (Visualizer._score_to_color s1 = "green"%string <-> 85 <= s1) /\
  (Visualizer._score_to_color s1 = "darkred"%string <-> s1 < 40).
Proof.
  unfold Visualizer._score_to_color, Py.ge. split; [|split].
  - intros H. cmp_cases; cbn; try lia; lra.
  - cmp_cases; split; intros; try done; lra.
  - cmp_cases; split; intros; try done; lra.
Qed.

End SectorsAndColours.

Lemma _is_in_sector_cover_witness :
  Collector._is_in_sector ExampleLib.lib 12 93 11 92 350 10
  || Collector._is_in_sector ExampleLib.lib 12 93 11 92 10 350 = true.
Proof.
  apply (_is_in_sector_cover ExampleLib.lib 12 93 11 92 350 10).
  vm_compute. discriminate.
Defined.

Lemma calculate_midpoint_between_witness :
  11.5347 <= (Planner.calculate_midpoint 11.5347 92.5903 11.8269 92.5228).1 /\
  (Planner.calculate_midpoint 11.5347 92.5903 11.8269 92.5228).1 <= 11.8269.
Proof.
  apply (calculate_midpoint_between 11.5347 92.5903 11.8269 92.5228).
  vm_compute. discriminate.
Defined.

Lemma _score_to_color_monotone_witness :
  (color_rank (Visualizer._score_to_color 62.5)
   <= color_rank (Visualizer._score_to_color 84.9))%nat.
Proof.
  apply (_score_to_color_monotone 62.5 84.9). vm_compute. discriminate.
Defined.
